(** * current_city_weather.py: a shallow embedding and its properties

    The module under study is a small client of the openweathermap HTTP API:
    class [CityWeather] with three validating property setters, a fetch step
    ([create_city_weather_data_file]), a parse step
    ([update_city_weather_dict]) that fills the module-level dictionary
    [city_weather_dict], and a rendering step ([print_city_weather_report]).

    Python values are modelled by [pyval], exceptions by [exn], and the
    effects of the module (the global dictionary, standard output, the
    scratch file and the HTTP requests issued) by a state-and-exception
    monad over [world].  Python [str] is modelled by byte strings.  What
    the libraries do (the server, the file system, the XML parser, the
    Unicode tables behind [str.lower], argparse) is not part of the module:
    it is gathered in [env], and the statements hold for every [env]. *)

From Stdlib Require Import Ascii String ZArith.
From stdpp Require Import gmap strings list pretty.

Set Warnings "-register-all".

Open Scope string_scope.
Open Scope list_scope.

(** ** Python values *)

(** The values the module is handed: [None], integers and strings. *)

Inductive pyval :=
  | PyNone
  | PyInt (z : Z)
  | PyStr (s : string).

#[global] Instance pyval_eq_dec : EqDecision pyval.
Proof. solve_decision. Defined.

Definition pyval_to_sum (v : pyval) : unit + Z + string :=
  match v with
  | PyNone => inl (inl tt)
  | PyInt z => inl (inr z)
  | PyStr s => inr s
  end.

Definition pyval_of_sum (x : unit + Z + string) : pyval :=
  match x with
  | inl (inl _) => PyNone
  | inl (inr z) => PyInt z
  | inr s => PyStr s
  end.

#[global] Instance pyval_countable : Countable pyval.
Proof.
  apply (inj_countable' pyval_to_sum pyval_of_sum).
  intros []; reflexivity.
Defined.

(** [type(val) is str] *)
Definition type_is_str (val : pyval) : bool :=
  match val with
  | PyStr _ => true
  | _ => false
  end.

(** Truth value of an object, as tested by [if val:]. *)
Definition truthy (val : pyval) : bool :=
  match val with
  | PyNone => false
  | PyInt z => negb (Z.eqb z 0)
  | PyStr s => negb (String.eqb s EmptyString)
  end.

(** [val != k] *)
Definition py_ne (val k : pyval) : bool := bool_decide (val ≠ k).

(** [str(val)], as used by the [%s] conversion. *)
Definition py_str (val : pyval) : string :=
  match val with
  | PyNone => "None"
  | PyInt z => pretty z
  | PyStr s => s
  end.

(** ** Exceptions *)

(** Exceptions raised by the libraries the module calls (urllib, the file
    system, the XML parser).  None of them is a [WeatherException]: that
    class is defined by the module itself. *)
Inductive ext_exn :=
  | URLError
  | HTTPError (code : nat)
  | OSError
  | ExpatError.

Inductive exn :=
  | WeatherException (msg : string)
  | RecursionError
  | KeyError
  | TypeError
  | IndexError
  | UnboundLocalError
  | ValueError
  | SystemExit (code : nat)
  | External (e : ext_exn).

Inductive result (A : Type) :=
  | Ok (a : A)
  | Raise (e : exn).
Arguments Ok {A} a.
Arguments Raise {A} e.

(** [except WeatherException as e]: the handler receives [str(e)]. *)
Definition as_WeatherException (e : exn) : option string :=
  match e with
  | WeatherException msg => Some msg
  | _ => None
  end.

(** ** Module constants *)

Definition SERVER_NAME : string := "http://api.openweathermap.org".
Definition DATA_PATH : string := "/data/2.5/weather?q=".
Definition CITY_FILE_NAME : string := "weather.xml".

(** A dict literal keeps insertion order, and both the [units] setter and
    the reverse lookup of the parse step iterate over it in that order. *)
Definition unit_conversion_dict : list (string * string) :=
  [ ("fahrenheit", "imperial"); ("celsius", "metric"); ("kelvin", EmptyString) ].

Definition dict_keys (d : list (string * string)) : list string := map fst d.

Fixpoint dict_get (d : list (string * string)) (k : string) : option string :=
  match d with
  | [] => None
  | (k', v) :: d' => if String.eqb k k' then Some v else dict_get d' k
  end.

(** [d[key]] for a dict with string keys: any other key is absent. *)
Definition dict_getitem (d : list (string * string)) (key : pyval) : result string :=
  match key with
  | PyStr k =>
      match dict_get d k with
      | Some v => Ok v
      | None => Raise KeyError
      end
  | _ => Raise KeyError
  end.

Definition nl : string := String "010"%char EmptyString.

Fixpoint join (sep : string) (l : list string) : string :=
  match l with
  | [] => EmptyString
  | [x] => x
  | x :: l' => x +:+ sep +:+ join sep l'
  end.

Definition repr_str (s : string) : string := "'" +:+ s +:+ "'".

(** [str(d.keys())] *)
Definition str_dict_keys (d : list (string * string)) : string :=
  "dict_keys([" +:+ join ", " (map repr_str (dict_keys d)) +:+ "])".

(** ** class CityWeather *)

Record CityWeather := mkCityWeather {
  city_name : pyval;      (* self.__city_name *)
  units : pyval;          (* self.__units *)
  api_key : pyval;        (* self.__api_key *)
  mode : pyval;           (* self.mode *)
}.

(** [CityWeather.__init__]; the defaults of the signature are
    [city_name="paris"], [units="celsius"], [api_key=None]. *)
Definition __init__ (city_name units api_key : pyval) : CityWeather :=
  {| city_name := city_name; units := units; api_key := api_key;
     mode := PyStr "xml" |}.

Definition default_city_name : pyval := PyStr "paris".
Definition default_units : pyval := PyStr "celsius".
Definition default_api_key : pyval := PyNone.

Definition city_name_msg : string :=
  "city name inserted is not of string type, please enter only"
  +:+ " a string and if the city name is more than one word "
  +:+ "separated by space".

(** [@city_name.setter] *)
Definition city_name_setter (self : CityWeather) (val : pyval) : result CityWeather :=
  if negb (type_is_str val) then Raise (WeatherException city_name_msg)
  else Ok {| city_name := val; units := units self; api_key := api_key self;
             mode := mode self |}.

Definition units_msg : string :=
  "Wrong value is set for temperature units, enter only "
  +:+ str_dict_keys unit_conversion_dict.

(** The loop [for k in unit_conversion_dict: if val != k: raise ...]. *)
Fixpoint units_loop (keys : list string) (val : pyval) : result unit :=
  match keys with
  | [] => Ok tt
  | k :: keys' =>
      if py_ne val (PyStr k) then Raise (WeatherException units_msg)
      else units_loop keys' val
  end.

(** [@units.setter] *)
Definition units_setter (self : CityWeather) (val : pyval) : result CityWeather :=
  match units_loop (dict_keys unit_conversion_dict) val with
  | Raise e => Raise e
  | Ok _ => Ok {| city_name := city_name self; units := val;
                  api_key := api_key self; mode := mode self |}
  end.

Definition api_key_msg : string :=
  "No value was entered to api_key." +:+ nl +:+ "Please enter a valid key "
  +:+ "after signing up the openweathermap site, see help at:" +:+ nl
  +:+ "https://openweathermap.org/appid".

(** [@api_key.setter].  The assignment [self.api_key = val] in its body goes
    through the property again, so the setter calls itself; [depth] is the
    number of frames the interpreter still allows, and the call that finds
    none left raises [RecursionError]. *)
Fixpoint api_key_setter (depth : nat) (self : CityWeather) (val : pyval)
  : result CityWeather :=
  match depth with
  | O => Raise RecursionError
  | S depth' =>
      if truthy val then api_key_setter depth' self val
      else Raise (WeatherException api_key_msg)
  end.

(** ** The XML document, as xml.dom.minidom presents it *)

(** Only element nodes are kept: text, comment and processing-instruction
    nodes have no element below them and are never returned by
    [getElementsByTagName]. *)
Inductive node :=
  | Element (tagName : string) (attributes : gmap string string)
            (childNodes : list node).

Definition node_tagName (n : node) : string :=
  match n with Element t _ _ => t end.

Definition node_attributes (n : node) : gmap string string :=
  match n with Element _ a _ => a end.

Definition tag_matches (name : string) (n : node) : bool :=
  String.eqb name "*" || String.eqb (node_tagName n) name.

(** minidom's helper: the descendants of [parent] with the given tag, in
    document order; [parent] itself is not among them. *)
Fixpoint _get_elements_by_tagName_helper (parent : node) (name : string)
  : list node :=
  match parent with
  | Element _ _ children =>
      (fix over (cs : list node) : list node :=
         match cs with
         | [] => []
         | c :: cs' =>
             (if tag_matches name c then [c] else [])
               ++ _get_elements_by_tagName_helper c name ++ over cs'
         end) children
  end.

(** [Element.getElementsByTagName] *)
Definition getElementsByTagName (n : node) (name : string) : list node :=
  _get_elements_by_tagName_helper n name.

(** [Document.getElementsByTagName]: the document node has the root element
    as its only element child; [root] is that element. *)
Definition Document_getElementsByTagName (root : node) (name : string)
  : list node :=
  (if tag_matches name root then [root] else [])
    ++ _get_elements_by_tagName_helper root name.

(** [Element.getAttribute]: the empty string when the attribute is absent. *)
Definition getAttribute (n : node) (attname : string) : string :=
  match node_attributes n !! attname with
  | Some v => v
  | None => EmptyString
  end.

(** [l[0]] *)
Definition item0 {A : Type} (l : list A) : result A :=
  match l with
  | x :: _ => Ok x
  | [] => Raise IndexError
  end.

(** ** The report stored for a city *)

Record temperature_entry := mkTemperature {
  temperature_val : string; temp_unit : string }.
Record humidity_entry := mkHumidity {
  humidity_val : string; humidity_unit : string }.
Record wind_entry := mkWind {
  wind_val : string; wind_desc : string }.
Record pressure_entry := mkPressure {
  pressure_val : string; pressure_unit : string }.
Record clouds_entry := mkClouds {
  clouds_val : string; clouds_desc : string }.

Record report := mkReport {
  temperature : temperature_entry;
  humidity : humidity_entry;
  wind : wind_entry;
  pressure : pressure_entry;
  clouds : clouds_entry;
}.

(** ** The monads *)

#[global] Instance result_ret : MRet result := fun A a => Ok a.
#[global] Instance result_bind : MBind result := fun A B f m =>
  match m with
  | Ok a => f a
  | Raise e => Raise e
  end.

(** What the module can observe and change. *)
Record world := mkWorld {
  city_weather_dict : gmap pyval report;  (* the module-level dictionary *)
  stdout : list string;                   (* one entry per [print] call *)
  weather_xml : option string;            (* contents of CITY_FILE_NAME *)
  requests : list string;                 (* URLs handed to urlopen *)
}.

(** What argparse makes of a command line before it looks at the
    [choices]: it ends the process, with a status and the text it has
    written to standard output (the help of [-h], with status 0; nothing,
    with status 2, for a command line it cannot read), or it hands out the
    words it takes as the three positionals. *)
Inductive argparse_result :=
  | ArgparseExit (code : nat) (out : list string)
  | Positionals (city_name temp_units api_key : string).

(** What the outside does during one call: the answer of the server to a
    URL, whether writing the scratch file fails and what the file holds
    after a failed write (given what it held before: the same when it
    could not be opened, a truncated file when the write broke off), what
    the XML parser makes of a file's contents, what [str.lower] returns
    for a string, and what argparse makes of a command line. *)
Record env := mkEnv {
  http_get : string -> ext_exn + string;
  file_write_error : option ext_exn;
  file_after_failed_write : option string -> option string;
  minidom_parse : string -> ext_exn + node;
  str_lower : string -> string;
  argparse : list string -> argparse_result;
}.

Definition M (A : Type) : Type := world -> result A * world.

#[global] Instance M_ret : MRet M := fun A a w => (Ok a, w).
#[global] Instance M_bind : MBind M := fun A B f m w =>
  match m w with
  | (Ok a, w') => f a w'
  | (Raise e, w') => (Raise e, w')
  end.

Definition raise {A : Type} (e : exn) : M A := fun w => (Raise e, w).

Definition liftR {A : Type} (r : result A) : M A := fun w => (r, w).

(** [try: body except WeatherException as e: handler(str(e))] *)
Definition try_except_WeatherException {A : Type}
    (body : M A) (handler : string -> M A) : M A := fun w =>
  match body w with
  | (Ok a, w') => (Ok a, w')
  | (Raise e, w') =>
      match as_WeatherException e with
      | Some msg => handler msg w'
      | None => (Raise e, w')
      end
  end.

(** [print(s)] *)
Definition print (s : string) : M unit := fun w =>
  (Ok tt, {| city_weather_dict := city_weather_dict w;
             stdout := stdout w ++ [s +:+ nl];
             weather_xml := weather_xml w;
             requests := requests w |}).

(** [urllib.request.urlopen(url).read()] *)
Definition urlopen_read (E : env) (url : string) : M string := fun w =>
  let w' := {| city_weather_dict := city_weather_dict w;
               stdout := stdout w;
               weather_xml := weather_xml w;
               requests := requests w ++ [url] |} in
  match http_get E url with
  | inl e => (Raise (External e), w')
  | inr body => (Ok body, w')
  end.

(** [with open(CITY_FILE_NAME, mode='wb') as file: file.write(xml_data)] *)
Definition write_city_file (E : env) (xml_data : string) : M unit := fun w =>
  match file_write_error E with
  | Some e =>
      (Raise (External e),
       {| city_weather_dict := city_weather_dict w;
          stdout := stdout w;
          weather_xml := file_after_failed_write E (weather_xml w);
          requests := requests w |})
  | None =>
      (Ok tt, {| city_weather_dict := city_weather_dict w;
                 stdout := stdout w;
                 weather_xml := Some xml_data;
                 requests := requests w |})
  end.

(** [xml.dom.minidom.parse(CITY_FILE_NAME)]; the result is the root element
    of the parsed document. *)
Definition parse_city_file (E : env) : M node := fun w =>
  match weather_xml w with
  | None => (Raise (External OSError), w)
  | Some contents =>
      match minidom_parse E contents with
      | inl e => (Raise (External e), w)
      | inr root => (Ok root, w)
      end
  end.

(** [city_weather_dict[key] = r] *)
Definition dict_setitem (key : pyval) (r : report) : M unit := fun w =>
  (Ok tt, {| city_weather_dict := <[key := r]> (city_weather_dict w);
             stdout := stdout w;
             weather_xml := weather_xml w;
             requests := requests w |}).

(** [city_weather_dict[key]] *)
Definition dict_lookup (key : pyval) : M report := fun w =>
  match city_weather_dict w !! key with
  | Some r => (Ok r, w)
  | None => (Raise KeyError, w)
  end.

(** [s + v] for a [str] [s] *)
Definition str_add (s : string) (v : pyval) : result string :=
  match v with
  | PyStr t => Ok (s +:+ t)
  | _ => Raise TypeError
  end.

(** ** The methods of CityWeather that talk to the outside *)

Definition request_url (self : CityWeather) (api_units : string) : result string :=
  s ← str_add (SERVER_NAME +:+ DATA_PATH) (city_name self);
  s ← str_add (s +:+ "&appid=") (api_key self);
  s ← str_add (s +:+ "&mode=") (mode self);
  Ok ((s +:+ "&units=") +:+ api_units).

Definition create_city_weather_data_file (E : env) (self : CityWeather) : M unit :=
  api_units ← liftR (dict_getitem unit_conversion_dict (units self));
  url ← liftR (request_url self api_units);
  xml_data ← urlopen_read E url;
  try_except_WeatherException
    (write_city_file E xml_data)
    (fun e => print ("File operations failed with error: " +:+ e)).

(** The temperature unit stored for the provider's [unit] attribute. *)
Definition temp_unit_of (api_temp_unit : string) : result string :=
  if String.eqb api_temp_unit "metric" then
    item0 (map fst (List.filter (fun kv => String.eqb (snd kv) api_temp_unit)
                                unit_conversion_dict))
  else Ok api_temp_unit.

(** Lines 120 to 158 of the method, up to the dictionary update: the record
    built from the parsed document. *)
Definition extract_report (document : node) : result report :=
  node_current ← item0 (Document_getElementsByTagName document "current");
  let node_temp := getElementsByTagName node_current "temperature" in
  let node_wind := getElementsByTagName node_current "wind" in
  let node_humidity := getElementsByTagName node_current "humidity" in
  let node_pressure := getElementsByTagName node_current "pressure" in
  let node_clouds := getElementsByTagName node_current "clouds" in
  t ← item0 node_temp;
  let temperature_val := getAttribute t "value" in
  let api_temp_unit := getAttribute t "unit" in
  temp_unit ← temp_unit_of api_temp_unit;
  h ← item0 node_humidity;
  let humidity_val := getAttribute h "value" in
  let humidity_unit := getAttribute h "unit" in
  w ← item0 node_wind;
  s ← item0 (getElementsByTagName w "speed");
  let wind_val := getAttribute s "value" in
  let wind_desc := getAttribute s "name" in
  c ← item0 node_clouds;
  let clouds_val := getAttribute c "value" in
  let clouds_desc := getAttribute c "name" in
  p ← item0 node_pressure;
  let pressure_val := getAttribute p "value" in
  let pressure_unit := getAttribute p "unit" in
  Ok {| temperature := {| temperature_val := temperature_val;
                          temp_unit := temp_unit |};
        humidity := {| humidity_val := humidity_val;
                       humidity_unit := humidity_unit |};
        wind := {| wind_val := wind_val; wind_desc := wind_desc |};
        pressure := {| pressure_val := pressure_val;
                       pressure_unit := pressure_unit |};
        clouds := {| clouds_val := clouds_val; clouds_desc := clouds_desc |} |}.

Definition update_city_weather_dict (E : env) (self : CityWeather) : M unit :=
  create_city_weather_data_file E self;;
  document ← try_except_WeatherException
    (d ← parse_city_file E; mret (Some d))
    (fun e =>
       print ("Parsing data file " +:+ CITY_FILE_NAME
              +:+ " failed with error: " +:+ e);;
       mret None);
  (* [document] is unbound when the handler ran *)
  document ← match document with
             | Some d => mret d
             | None => raise UnboundLocalError
             end;
  r ← liftR (extract_report document);
  dict_setitem (city_name self) r.

(** ** Rendering *)

(** [str.lower] itself is [str_lower] of the environment.  On ASCII text
    it turns the letters A to Z into a to z and keeps every other
    character; [ascii_lower] does that, and is what the sample
    environments below, whose strings are ASCII, answer. *)
Definition ascii_lower_char (c : ascii) : ascii :=
  let n := nat_of_ascii c in
  if Nat.leb 65 n && Nat.leb n 90 then ascii_of_nat (n + 32) else c.

Fixpoint ascii_lower (s : string) : string :=
  match s with
  | EmptyString => EmptyString
  | String c s' => String (ascii_lower_char c) (ascii_lower s')
  end.

(** [fmt % args] for the two conversions the module uses, [%s] and [%%];
    the other conversions of Python are not modelled and end in
    [ValueError] here, as an incomplete format does.  Too few or too many
    arguments raise [TypeError]. *)
Fixpoint py_format (fmt : string) (args : list pyval) : result string :=
  match fmt with
  | EmptyString =>
      match args with
      | [] => Ok EmptyString
      | _ :: _ => Raise TypeError
      end
  | String "%"%char (String "s"%char rest) =>
      match args with
      | a :: args' => r ← py_format rest args'; Ok (py_str a +:+ r)
      | [] => Raise TypeError
      end
  | String "%"%char (String "%"%char rest) =>
      r ← py_format rest args; Ok (String "%"%char r)
  | String "%"%char _ => Raise ValueError
  | String c rest => r ← py_format rest args; Ok (String c r)
  end.

Definition report_format : string :=
  "Weather report for %s:" +:+ nl
  +:+ "Temperature is at %s %s" +:+ nl
  +:+ "Humidity is %s%s" +:+ nl
  +:+ "Wind is at %s speed meaning %s" +:+ nl
  +:+ "Air pressure is %s %s" +:+ nl
  +:+ "Clouds coverage is %s%% meaning %s" +:+ nl.

Definition print_city_weather_report (E : env) (self : CityWeather) : M unit :=
  let city_name := city_name self in
  r ← dict_lookup city_name;
  text ← liftR (py_format report_format
    [ city_name;
      PyStr (temperature_val (temperature r));
      PyStr (temp_unit (temperature r));
      PyStr (humidity_val (humidity r));
      PyStr (humidity_unit (humidity r));
      PyStr (wind_val (wind r));
      PyStr (str_lower E (wind_desc (wind r)));
      PyStr (pressure_val (pressure r));
      PyStr (pressure_unit (pressure r));
      PyStr (clouds_val (clouds r));
      PyStr (str_lower E (clouds_desc (clouds r))) ]);
  print text.

(** ** Entry points *)

Definition run (E : env) (city_name units api_key : pyval) : M unit :=
  let weather_obj := __init__ city_name units api_key in
  update_city_weather_dict E weather_obj;;
  print_city_weather_report E weather_obj.

Definition temp_units_choices : list string :=
  [ "kelvin"; "celsius"; "fahrenheit" ].

(** [parser.parse_args()] for the parser [main] builds: three positionals,
    the second with [choices].  How argparse reads the command line (its
    options, [-h], [--], the number of words) is the environment's; a
    [temp_units] outside the [choices] ends the process with status 2,
    the message going to standard error. *)
Definition parse_args (E : env) (argv : list string)
  : M (string * string * string) := fun w =>
  match argparse E argv with
  | ArgparseExit code out =>
      (Raise (SystemExit code),
       {| city_weather_dict := city_weather_dict w;
          stdout := stdout w ++ out;
          weather_xml := weather_xml w;
          requests := requests w |})
  | Positionals city_name temp_units api_key =>
      if bool_decide (temp_units ∈ temp_units_choices)
      then (Ok (city_name, temp_units, api_key), w)
      else (Raise (SystemExit 2), w)
  end.

Definition main (E : env) (argv : list string) : M unit :=
  args ← parse_args E argv;
  let '(city_name, temp_units, api_key) := args in
  let ob := __init__ (PyStr city_name) (PyStr temp_units) (PyStr api_key) in
  update_city_weather_dict E ob;;
  print_city_weather_report E ob.

(** ** A sample response *)

Definition attrs (l : list (string * string)) : gmap string string :=
  list_to_map l.

Definition sample_temperature : node :=
  Element "temperature" (attrs [("value", "15"); ("unit", "metric")]) [].
Definition sample_humidity : node :=
  Element "humidity" (attrs [("value", "60"); ("unit", "%")]) [].
Definition sample_speed : node :=
  Element "speed" (attrs [("value", "3"); ("name", "Light breeze")]) [].
Definition sample_wind : node := Element "wind" ∅ [ sample_speed ].
Definition sample_pressure : node :=
  Element "pressure" (attrs [("value", "1012"); ("unit", "hPa")]) [].
Definition sample_clouds : node :=
  Element "clouds" (attrs [("value", "40"); ("name", "scattered clouds")]) [].

Definition sample_document : node :=
  Element "current" ∅
    [ sample_temperature; sample_humidity; sample_wind; sample_pressure;
      sample_clouds ].

Definition sample_body : string :=
  "<current><temperature value='15' unit='metric'/>"
  +:+ "<humidity value='60' unit='%'/>"
  +:+ "<wind><speed value='3' name='Light breeze'/></wind>"
  +:+ "<pressure value='1012' unit='hPa'/>"
  +:+ "<clouds value='40' name='scattered clouds'/></current>".

Definition sample_report : report :=
  {| temperature := {| temperature_val := "15"; temp_unit := "celsius" |};
     humidity := {| humidity_val := "60"; humidity_unit := "%" |};
     wind := {| wind_val := "3"; wind_desc := "Light breeze" |};
     pressure := {| pressure_val := "1012"; pressure_unit := "hPa" |};
     clouds := {| clouds_val := "40"; clouds_desc := "scattered clouds" |} |}.

(** A later response for the same city, in imperial units. *)
Definition later_document : node :=
  Element "current" ∅
    [ Element "temperature" (attrs [("value", "71"); ("unit", "imperial")]) [];
      Element "humidity" (attrs [("value", "48"); ("unit", "%")]) [];
      Element "wind" ∅
        [ Element "speed" (attrs [("value", "12"); ("name", "Fresh Breeze")]) [] ];
      Element "pressure" (attrs [("value", "1009"); ("unit", "hPa")]) [];
      Element "clouds" (attrs [("value", "0"); ("name", "clear sky")]) [] ].

Definition later_report : report :=
  {| temperature := {| temperature_val := "71"; temp_unit := "imperial" |};
     humidity := {| humidity_val := "48"; humidity_unit := "%" |};
     wind := {| wind_val := "12"; wind_desc := "Fresh Breeze" |};
     pressure := {| pressure_val := "1009"; pressure_unit := "hPa" |};
     clouds := {| clouds_val := "0"; clouds_desc := "clear sky" |} |}.

Definition empty_world : world :=
  {| city_weather_dict := ∅; stdout := []; weather_xml := None; requests := [] |}.

Definition starts_with_dash (s : string) : bool :=
  match s with
  | String "-"%char _ => true
  | _ => false
  end.

(** The sample environments take a command line of three words without a
    leading dash as the three positionals, as argparse does, and end every
    other command line with status 2. *)
Definition sample_argparse (argv : list string) : argparse_result :=
  match argv with
  | [ c; u; k ] =>
      if starts_with_dash c || starts_with_dash u || starts_with_dash k
      then ArgparseExit 2 []
      else Positionals c u k
  | _ => ArgparseExit 2 []
  end.

(** An outside world in which the server answers [body], the scratch file
    can be written, and the parser turns any contents into [root]. *)
Definition env_ok (body : string) (root : node) : env :=
  {| http_get := fun _ => inr body;
     file_write_error := None;
     file_after_failed_write := fun old => old;
     minidom_parse := fun _ => inr root;
     str_lower := ascii_lower;
     argparse := sample_argparse |}.

Definition env_network_down : env :=
  {| http_get := fun _ => inl URLError;
     file_write_error := None;
     file_after_failed_write := fun old => old;
     minidom_parse := fun _ => inl ExpatError;
     str_lower := ascii_lower;
     argparse := sample_argparse |}.

(** The write breaks off after the file was opened: it is left empty. *)
Definition env_disk_full (body : string) : env :=
  {| http_get := fun _ => inr body;
     file_write_error := Some OSError;
     file_after_failed_write := fun _ => Some EmptyString;
     minidom_parse := fun _ => inl ExpatError;
     str_lower := ascii_lower;
     argparse := sample_argparse |}.

Definition env_malformed (body : string) : env :=
  {| http_get := fun _ => inr body;
     file_write_error := None;
     file_after_failed_write := fun old => old;
     minidom_parse := fun _ => inl ExpatError;
     str_lower := ascii_lower;
     argparse := sample_argparse |}.

(** An outside whose argparse answers [-h]: the help on standard output,
    status 0. *)
Definition env_help (help : string) : env :=
  {| http_get := fun _ => inl URLError;
     file_write_error := None;
     file_after_failed_write := fun old => old;
     minidom_parse := fun _ => inl ExpatError;
     str_lower := ascii_lower;
     argparse := fun argv =>
       match argv with
       | [ "-h" ] => ArgparseExit 0 [help]
       | _ => sample_argparse argv
       end |}.

(** A record with capital letters in every textual field. *)
Definition capitals_report : report :=
  {| temperature := {| temperature_val := "288"; temp_unit := "Kelvin" |};
     humidity := {| humidity_val := "60"; humidity_unit := "%RH" |};
     wind := {| wind_val := "3"; wind_desc := "Light BREEZE" |};
     pressure := {| pressure_val := "1012"; pressure_unit := "hPa" |};
     clouds := {| clouds_val := "40"; clouds_desc := "Scattered Clouds" |} |}.

Definition capitals_world : world :=
  {| city_weather_dict := {[ PyStr "Tel Aviv" := capitals_report ]};
     stdout := []; weather_xml := None; requests := [] |}.

Definition capitals_query : CityWeather :=
  __init__ (PyStr "Tel Aviv") (PyStr "kelvin") (PyStr "KEY").

(** The sample response without its [wind] element. *)
Definition sample_without_wind : node :=
  Element "current" ∅
    [ sample_temperature; sample_humidity; sample_pressure; sample_clouds ].

Definition sample_query : CityWeather :=
  __init__ (PyStr "tel aviv") (PyStr "celsius") (PyStr "0e0ab2271488dc844f64ead7184b53fc").

Definition sample_url : string :=
  "http://api.openweathermap.org/data/2.5/weather?q=tel aviv&appid=0e0ab2271488dc844f64ead7184b53fc&mode=xml&units=metric".

(** A world in which the sample report is stored for the sample city. *)
Definition sample_world : world :=
  {| city_weather_dict := {[ PyStr "tel aviv" := sample_report ]};
     stdout := []; weather_xml := None; requests := [] |}.

Definition later_body : string :=
  "<current><temperature value='71' unit='imperial'/>"
  +:+ "<humidity value='48' unit='%'/>"
  +:+ "<wind><speed value='12' name='Fresh Breeze'/></wind>"
  +:+ "<pressure value='1009' unit='hPa'/>"
  +:+ "<clouds value='0' name='clear sky'/></current>".

Definition sample_key : pyval := PyStr "0e0ab2271488dc844f64ead7184b53fc".

(** The world after a query answered by the sample response, and after a
    second query for the same city answered by the later one. *)
Definition world_after_sample : world :=
  snd (run (env_ok sample_body sample_document)
           (PyStr "tel aviv") (PyStr "celsius") sample_key empty_world).

Definition world_after_later : world :=
  snd (run (env_ok later_body later_document)
           (PyStr "tel aviv") (PyStr "fahrenheit") sample_key
           world_after_sample).

(** ** Vocabulary of the statements *)

(** The request of [self] is well formed, it is [url], and the server
    answers it with [body]. *)
Definition fetch_ok (E : env) (self : CityWeather) (url body : string) : Prop :=
  ∃ tok,
    dict_getitem unit_conversion_dict (units self) = Ok tok
    ∧ request_url self tok = Ok url
    ∧ http_get E url = inr body.

(** Moreover the scratch file is written and the XML parser returns
    [document] for it. *)
Definition fetch_parse_ok (E : env) (self : CityWeather)
    (url body : string) (document : node) : Prop :=
  fetch_ok E self url body
  ∧ file_write_error E = None
  ∧ minidom_parse E body = inr document.

(** The world once the request was issued and the scratch file written. *)
Definition after_fetch (w : world) (url body : string) : world :=
  {| city_weather_dict := city_weather_dict w;
     stdout := stdout w;
     weather_xml := Some body;
     requests := requests w ++ [url] |}.

(** The errors of the fetch-parse sequence, by the step they occur in: the
    HTTP request, the write of the scratch file, the XML parser, and the
    search for the expected elements in the parsed document. *)
Inductive stage := Network | File | Malformed | MissingElement.

Inductive fetch_parse_error (E : env) (self : CityWeather) : stage → exn → Prop :=
  | network_error tok url e :
      dict_getitem unit_conversion_dict (units self) = Ok tok →
      request_url self tok = Ok url →
      http_get E url = inl e →
      fetch_parse_error E self Network (External e)
  | file_error url body e :
      fetch_ok E self url body →
      file_write_error E = Some e →
      fetch_parse_error E self File (External e)
  | malformed_error url body e :
      fetch_ok E self url body →
      file_write_error E = None →
      minidom_parse E body = inl e →
      fetch_parse_error E self Malformed (External e)
  | missing_element_error url body document e :
      fetch_parse_ok E self url body document →
      extract_report document = Raise e →
      fetch_parse_error E self MissingElement e.

(** The two readings C3 needs: the error is caught (the call does not end
    in an exception of the outside), and it is reported (one message is
    printed). *)
Definition error_caught (E : env) (self : CityWeather) (w : world) : Prop :=
  ∀ e, fst (update_city_weather_dict E self w) ≠ Raise (External e).

Definition error_reported (E : env) (self : CityWeather) (w : world) : Prop :=
  ∃ msg, stdout (snd (update_city_weather_dict E self w)) = stdout w ++ [msg].

(** Whether a call ended in a [WeatherException]. *)
Definition raised_WeatherException {A : Type} (r : result A) : bool :=
  match r with
  | Raise (WeatherException _) => true
  | _ => false
  end.

Definition lacks (n : node) (name : string) : Prop :=
  getElementsByTagName n name = [].

(** One of the elements the parse step looks for is absent: [current] in
    the document; [temperature], [humidity], [wind], [pressure] or [clouds]
    below the first [current]; [speed] below the first [wind]. *)
Definition missing_expected_element (document : node) : Prop :=
  match Document_getElementsByTagName document "current" with
  | [] => True
  | node_current :: _ =>
      lacks node_current "temperature"
      ∨ lacks node_current "humidity"
      ∨ lacks node_current "pressure"
      ∨ lacks node_current "clouds"
      ∨ match getElementsByTagName node_current "wind" with
        | [] => True
        | node_wind :: _ => lacks node_wind "speed"
        end
  end.

(** A response with all the expected elements; [cur], [t], [h], [wd], [s],
    [p] and [c] are the first [current], [temperature], [humidity], [wind],
    [speed], [pressure] and [clouds] elements. *)
Record well_formed (document cur t h wd s p c : node) : Prop := {
  wf_current : head (Document_getElementsByTagName document "current") = Some cur;
  wf_temperature : head (getElementsByTagName cur "temperature") = Some t;
  wf_humidity : head (getElementsByTagName cur "humidity") = Some h;
  wf_wind : head (getElementsByTagName cur "wind") = Some wd;
  wf_speed : head (getElementsByTagName wd "speed") = Some s;
  wf_pressure : head (getElementsByTagName cur "pressure") = Some p;
  wf_clouds : head (getElementsByTagName cur "clouds") = Some c;
}.

(** ** Further vocabulary *)

(** The world once a request for [url] was issued and nothing else done. *)
Definition after_request (w : world) (url : string) : world :=
  {| city_weather_dict := city_weather_dict w;
     stdout := stdout w;
     weather_xml := weather_xml w;
     requests := requests w ++ [url] |}.

(** The world once a request for [url] was issued and the write of the
    scratch file failed. *)
Definition after_failed_write (E : env) (w : world) (url : string) : world :=
  {| city_weather_dict := city_weather_dict w;
     stdout := stdout w;
     weather_xml := file_after_failed_write E (weather_xml w);
     requests := requests w ++ [url] |}.

(** The world once the record [r] was stored for [city]. *)
Definition after_store (w : world) (url body : string) (city : pyval)
    (r : report) : world :=
  {| city_weather_dict := <[city := r]> (city_weather_dict w);
     stdout := stdout w;
     weather_xml := Some body;
     requests := requests w ++ [url] |}.

(** The same world with other contents in the scratch file. *)
Definition with_weather_xml (w : world) (contents : option string) : world :=
  {| city_weather_dict := city_weather_dict w;
     stdout := stdout w;
     weather_xml := contents;
     requests := requests w |}.

(** The same world with one more entry on standard output. *)
Definition after_print (w : world) (entry : string) : world :=
  {| city_weather_dict := city_weather_dict w;
     stdout := stdout w ++ [entry];
     weather_xml := weather_xml w;
     requests := requests w |}.

(** The text of a report, written out: what the format string of
    [print_city_weather_report] gives for the city and the record, with
    [lower] for [str.lower]. *)
Definition report_text (lower : string -> string) (city : pyval) (r : report)
  : string :=
  "Weather report for " +:+ py_str city +:+ ":" +:+ nl
  +:+ "Temperature is at " +:+ temperature_val (temperature r)
  +:+ " " +:+ temp_unit (temperature r) +:+ nl
  +:+ "Humidity is " +:+ humidity_val (humidity r)
  +:+ humidity_unit (humidity r) +:+ nl
  +:+ "Wind is at " +:+ wind_val (wind r) +:+ " speed meaning "
  +:+ lower (wind_desc (wind r)) +:+ nl
  +:+ "Air pressure is " +:+ pressure_val (pressure r)
  +:+ " " +:+ pressure_unit (pressure r) +:+ nl
  +:+ "Clouds coverage is " +:+ clouds_val (clouds r)
  +:+ "% meaning " +:+ lower (clouds_desc (clouds r)) +:+ nl.

(** The URL of a query, written out. *)
Definition query_url (city key tok : string) : string :=
  "http://api.openweathermap.org/data/2.5/weather?q=" +:+ city
  +:+ "&appid=" +:+ key +:+ "&mode=xml&units=" +:+ tok.

(** The object the constructor makes from its defaults. *)
Definition default_query : CityWeather :=
  __init__ default_city_name default_units default_api_key.

(** The world after a query for Tel Aviv answered by the sample response
    and a query for Paris answered by the later one. *)
Definition world_after_paris : world :=
  snd (run (env_ok later_body later_document)
           (PyStr "paris") (PyStr "fahrenheit") sample_key
           world_after_sample).

(** The outcomes a call of [update_city_weather_dict] can have. *)
Definition update_outcome (r : result unit) : Prop :=
  r = Ok tt
  ∨ r = Raise KeyError
  ∨ r = Raise TypeError
  ∨ r = Raise IndexError
  ∨ ∃ e, r = Raise (External e).

(** The outcomes a call of [main] can have. *)
Definition main_outcome (r : result unit) : Prop :=
  r = Ok tt
  ∨ (∃ code, r = Raise (SystemExit code))
  ∨ r = Raise IndexError
  ∨ ∃ e, r = Raise (External e).

(** ** Proof steps *)

(** Unfolding the operations of the two monads. *)
Ltac unfold_monad :=
  unfold mbind, mret, M_bind, M_ret, result_bind, result_ret, liftR, raise,
    try_except_WeatherException.

Ltac unfold_monad_in H :=
  unfold mbind, mret, M_bind, M_ret, result_bind, result_ret, liftR, raise,
    try_except_WeatherException in H.

(** * Properties *)

(** ** The provider tokens *)

Lemma unit_conversion_tokens :
  dict_get unit_conversion_dict "kelvin" = Some EmptyString
  ∧ dict_get unit_conversion_dict "celsius" = Some "metric"
  ∧ dict_get unit_conversion_dict "fahrenheit" = Some "imperial".
Proof. repeat split. Qed.

Lemma dict_get_unit_conversion (u tok : string) :
  dict_get unit_conversion_dict u = Some tok →
  (u, tok) ∈ [ ("kelvin", EmptyString); ("celsius", "metric");
               ("fahrenheit", "imperial") ].
Proof.
  unfold unit_conversion_dict; simpl.
  destruct (String.eqb_spec u "fahrenheit") as [-> | _].
  { intros [= <-]. set_solver. }
  destruct (String.eqb_spec u "celsius") as [-> | _].
  { intros [= <-]. set_solver. }
  destruct (String.eqb_spec u "kelvin") as [-> | _].
  { intros [= <-]. set_solver. }
  discriminate.
Qed.

(** ** The setters *)

Lemma py_ne_true (val k : pyval) : val ≠ k → py_ne val k = true.
Proof. intros H. unfold py_ne. by rewrite bool_decide_eq_true. Qed.

Lemma units_loop_two_keys (k1 k2 : string) (keys : list string) (val : pyval) :
  k1 ≠ k2 →
  units_loop (k1 :: k2 :: keys) val = Raise (WeatherException units_msg).
Proof.
  intros Hne. cbn [units_loop].
  destruct (decide (val = PyStr k1)) as [-> | H1].
  - rewrite (py_ne_true (PyStr k1) (PyStr k2)) by congruence.
    unfold py_ne. by rewrite bool_decide_eq_false_2 by auto.
  - by rewrite py_ne_true.
Qed.

(** C1 (defect).  The loop of the [units] setter raises as soon as [val]
    differs from one key of [unit_conversion_dict], and no value equals all
    three keys: the setter raises [WeatherException] for every value, the
    three valid unit names included, and never stores anything. *)
Theorem units_setter_always_raises (self : CityWeather) (val : pyval) :
  units_setter self val = Raise (WeatherException units_msg).
Proof.
  unfold units_setter, unit_conversion_dict, dict_keys.
  cbn [map fst]. by rewrite units_loop_two_keys.
Qed.

Example units_setter_celsius :
  units_setter (__init__ default_city_name default_units default_api_key)
               (PyStr "celsius")
  = Raise (WeatherException
      "Wrong value is set for temperature units, enter only dict_keys(['fahrenheit', 'celsius', 'kelvin'])").
Proof. reflexivity. Qed.

(** C2 (defect).  For a non-empty string the [api_key] setter re-enters
    itself until the interpreter refuses a further frame: whatever the
    depth available, the call ends in [RecursionError] and the key is never
    stored. *)
Theorem api_key_setter_nonempty_str
    (depth : nat) (self : CityWeather) (c : ascii) (s : string) :
  api_key_setter depth self (PyStr (String c s)) = Raise RecursionError.
Proof.
  induction depth as [| depth IH]; [reflexivity |].
  cbn [api_key_setter truthy]. exact IH.
Qed.

Lemma api_key_setter_truthy (depth : nat) (self : CityWeather) (val : pyval) :
  truthy val = true → api_key_setter depth self val = Raise RecursionError.
Proof.
  intros Hval. induction depth as [| depth IH]; [reflexivity |].
  cbn [api_key_setter]. by rewrite Hval.
Qed.

Lemma api_key_setter_falsy (depth : nat) (self : CityWeather) (val : pyval) :
  truthy val = false →
  api_key_setter (S depth) self val = Raise (WeatherException api_key_msg).
Proof. intros Hval. cbn [api_key_setter]. by rewrite Hval. Qed.

Example api_key_setter_empty_and_None (self : CityWeather) :
  api_key_setter 1000 self (PyStr EmptyString) = Raise (WeatherException api_key_msg)
  ∧ api_key_setter 1000 self PyNone = Raise (WeatherException api_key_msg).
Proof. split; reflexivity. Qed.

(** C6 (as the code has it).  The [city_name] setter tests the type of the
    value and nothing else: every string is stored, the empty one and
    multi-word names included, and every other value is refused with
    [WeatherException]. *)
Theorem city_name_setter_spec (self : CityWeather) (val : pyval) :
  city_name_setter self val =
    match val with
    | PyStr s => Ok {| city_name := PyStr s; units := units self;
                       api_key := api_key self; mode := mode self |}
    | _ => Raise (WeatherException city_name_msg)
    end.
Proof. destruct val; reflexivity. Qed.

(** C6 (as stated) fails on the empty string: the setter stores it. *)
Lemma city_name_setter_accepts_empty :
  ¬ (∃ msg, city_name_setter
              (__init__ default_city_name default_units default_api_key)
              (PyStr EmptyString)
            = Raise (WeatherException msg)).
Proof. intros [msg H]. discriminate H. Qed.

Example city_name_setter_examples (self : CityWeather) :
  city_name (match city_name_setter self (PyStr "tel aviv") with
             | Ok self' => self' | Raise _ => self end) = PyStr "tel aviv"
  ∧ city_name_setter self (PyInt 5) = Raise (WeatherException city_name_msg)
  ∧ city_name_setter self PyNone = Raise (WeatherException city_name_msg).
Proof. repeat split. Qed.

(** ** The fetch step *)

Lemma create_city_weather_data_file_ok E self url body w :
  fetch_ok E self url body →
  file_write_error E = None →
  create_city_weather_data_file E self w = (Ok tt, after_fetch w url body).
Proof.
  intros (tok & Htok & Hurl & Hget) Hwrite.
  unfold create_city_weather_data_file. unfold_monad.
  rewrite Htok, Hurl. unfold urlopen_read. rewrite Hget.
  unfold write_city_file. rewrite Hwrite. reflexivity.
Qed.

Lemma create_city_weather_data_file_network_error E self tok url e w :
  dict_getitem unit_conversion_dict (units self) = Ok tok →
  request_url self tok = Ok url →
  http_get E url = inl e →
  create_city_weather_data_file E self w
  = (Raise (External e),
     {| city_weather_dict := city_weather_dict w; stdout := stdout w;
        weather_xml := weather_xml w; requests := requests w ++ [url] |}).
Proof.
  intros Htok Hurl Hget.
  unfold create_city_weather_data_file. unfold_monad.
  rewrite Htok, Hurl. unfold urlopen_read. rewrite Hget. reflexivity.
Qed.

Lemma create_city_weather_data_file_file_error E self url body e w :
  fetch_ok E self url body →
  file_write_error E = Some e →
  create_city_weather_data_file E self w
  = (Raise (External e), after_failed_write E w url).
Proof.
  intros (tok & Htok & Hurl & Hget) Hwrite.
  unfold create_city_weather_data_file. unfold_monad.
  rewrite Htok, Hurl. unfold urlopen_read. rewrite Hget.
  unfold write_city_file. rewrite Hwrite. reflexivity.
Qed.

(** ** The parse step *)

(** Once the fetch has succeeded and the parser has returned [document],
    the call is decided by [extract_report]. *)
Lemma update_city_weather_dict_parsed E self url body document w :
  fetch_parse_ok E self url body document →
  update_city_weather_dict E self w =
    match extract_report document with
    | Ok r =>
        (Ok tt,
         {| city_weather_dict := <[city_name self := r]> (city_weather_dict w);
            stdout := stdout w;
            weather_xml := Some body;
            requests := requests w ++ [url] |})
    | Raise e => (Raise e, after_fetch w url body)
    end.
Proof.
  intros (Hfetch & Hwrite & Hparse).
  unfold update_city_weather_dict.
  unfold mbind at 1. unfold M_bind at 1.
  rewrite (create_city_weather_data_file_ok _ _ _ _ _ Hfetch Hwrite).
  unfold_monad. unfold parse_city_file. cbn [weather_xml after_fetch].
  rewrite Hparse.
  destruct (extract_report document) as [r | e]; reflexivity.
Qed.

Lemma update_city_weather_dict_malformed E self url body e w :
  fetch_ok E self url body →
  file_write_error E = None →
  minidom_parse E body = inl e →
  update_city_weather_dict E self w
  = (Raise (External e), after_fetch w url body).
Proof.
  intros Hfetch Hwrite Hparse.
  unfold update_city_weather_dict.
  unfold mbind at 1. unfold M_bind at 1.
  rewrite (create_city_weather_data_file_ok _ _ _ _ _ Hfetch Hwrite).
  unfold_monad. unfold parse_city_file. cbn [weather_xml after_fetch].
  rewrite Hparse. reflexivity.
Qed.

(** A failure of the fetch step ends the call at once. *)
Lemma update_city_weather_dict_fetch_raises E self e w w' :
  create_city_weather_data_file E self w = (Raise e, w') →
  update_city_weather_dict E self w = (Raise e, w').
Proof.
  intros H. unfold update_city_weather_dict.
  unfold mbind at 1. unfold M_bind at 1. rewrite H. reflexivity.
Qed.

Lemma item0_head {A : Type} (l : list A) (x : A) :
  head l = Some x → item0 l = Ok x.
Proof. destruct l; [discriminate |]. by intros [= ->]. Qed.

Lemma item0_nil {A : Type} (l : list A) :
  l = [] → item0 l = Raise IndexError.
Proof. by intros ->. Qed.

(** The reverse lookup finds [celsius] for [metric]; any other token is
    kept. *)
Lemma temp_unit_of_spec (api_temp_unit : string) :
  temp_unit_of api_temp_unit
  = Ok (if String.eqb api_temp_unit "metric" then "celsius" else api_temp_unit).
Proof.
  unfold temp_unit_of.
  destruct (String.eqb_spec api_temp_unit "metric") as [-> | _]; reflexivity.
Qed.

Lemma extract_report_well_formed document cur t h wd s p c :
  well_formed document cur t h wd s p c →
  extract_report document =
    Ok {| temperature :=
            {| temperature_val := getAttribute t "value";
               temp_unit := if String.eqb (getAttribute t "unit") "metric"
                            then "celsius" else getAttribute t "unit" |};
          humidity := {| humidity_val := getAttribute h "value";
                         humidity_unit := getAttribute h "unit" |};
          wind := {| wind_val := getAttribute s "value";
                     wind_desc := getAttribute s "name" |};
          pressure := {| pressure_val := getAttribute p "value";
                         pressure_unit := getAttribute p "unit" |};
          clouds := {| clouds_val := getAttribute c "value";
                       clouds_desc := getAttribute c "name" |} |}.
Proof.
  intros [Hcur Ht Hh Hwd Hs Hp Hc]. unfold extract_report.
  rewrite (item0_head _ _ Hcur). cbn [mbind result_bind].
  rewrite (item0_head _ _ Ht). cbn [mbind result_bind].
  rewrite temp_unit_of_spec. cbn [mbind result_bind].
  rewrite (item0_head _ _ Hh). cbn [mbind result_bind].
  rewrite (item0_head _ _ Hwd). cbn [mbind result_bind].
  rewrite (item0_head _ _ Hs). cbn [mbind result_bind].
  rewrite (item0_head _ _ Hc). cbn [mbind result_bind].
  rewrite (item0_head _ _ Hp). cbn [mbind result_bind].
  reflexivity.
Qed.

(** Every failure of [extract_report] is the [IndexError] of a [[0]] on an
    empty node list. *)
Lemma extract_report_raises document e :
  extract_report document = Raise e → e = IndexError.
Proof.
  unfold extract_report, item0.
  repeat match goal with
  | |- context [match ?l with [] => _ | _ :: _ => _ end] =>
      destruct l; cbn [mbind result_bind]
  | |- Raise _ = Raise _ → _ => by intros [= <-]
  | |- context [temp_unit_of ?u] =>
      rewrite (temp_unit_of_spec u); cbn [mbind result_bind]
  end; discriminate.
Qed.

Lemma extract_report_missing document :
  missing_expected_element document →
  extract_report document = Raise IndexError.
Proof.
  unfold missing_expected_element, lacks, extract_report.
  destruct (Document_getElementsByTagName document "current")
    as [| cur rest]; [reflexivity |].
  cbn [item0 mbind result_bind].
  destruct (getElementsByTagName cur "temperature") as [| t ?];
    [reflexivity |].
  cbn [item0 mbind result_bind].
  rewrite temp_unit_of_spec. cbn [mbind result_bind].
  destruct (getElementsByTagName cur "humidity") as [| h ?];
    [reflexivity |].
  cbn [item0 mbind result_bind].
  destruct (getElementsByTagName cur "wind") as [| wd ?];
    [reflexivity |].
  cbn [item0 mbind result_bind].
  destruct (getElementsByTagName wd "speed") as [| s ?];
    [reflexivity |].
  cbn [item0 mbind result_bind].
  destruct (getElementsByTagName cur "clouds") as [| c ?];
    [reflexivity |].
  cbn [item0 mbind result_bind].
  destruct (getElementsByTagName cur "pressure") as [| p ?];
    [reflexivity |].
  intros [H | [H | [H | [H | H]]]]; discriminate H.
Qed.

(** C5.  For a well-formed response the call succeeds and the record stored
    for the city holds, as temperature unit, ["celsius"] when the
    provider's [unit] attribute is ["metric"] and that attribute itself
    otherwise; every other field is the attribute string received. *)
Theorem update_stores_attribute_strings
    E self url body document cur t h wd s p c w :
  fetch_parse_ok E self url body document →
  well_formed document cur t h wd s p c →
  fst (update_city_weather_dict E self w) = Ok tt
  ∧ city_weather_dict (snd (update_city_weather_dict E self w)) !! city_name self
    = Some {| temperature :=
                {| temperature_val := getAttribute t "value";
                   temp_unit := if String.eqb (getAttribute t "unit") "metric"
                                then "celsius" else getAttribute t "unit" |};
              humidity := {| humidity_val := getAttribute h "value";
                             humidity_unit := getAttribute h "unit" |};
              wind := {| wind_val := getAttribute s "value";
                         wind_desc := getAttribute s "name" |};
              pressure := {| pressure_val := getAttribute p "value";
                             pressure_unit := getAttribute p "unit" |};
              clouds := {| clouds_val := getAttribute c "value";
                           clouds_desc := getAttribute c "name" |} |}.
Proof.
  intros Hok Hwf.
  rewrite (update_city_weather_dict_parsed _ _ _ _ _ _ Hok).
  rewrite (extract_report_well_formed _ _ _ _ _ _ _ _ Hwf).
  split; [reflexivity |]. cbn [snd city_weather_dict].
  apply lookup_insert_eq.
Qed.

(** C4.  When the response lacks one of the expected elements, the call
    fails with the [IndexError] of the parse step and the dictionary is
    left as it was: no entry is created or updated. *)
Theorem update_missing_element_fails
    E self url body document w :
  fetch_parse_ok E self url body document →
  missing_expected_element document →
  fst (update_city_weather_dict E self w) = Raise IndexError
  ∧ city_weather_dict (snd (update_city_weather_dict E self w))
    = city_weather_dict w.
Proof.
  intros Hok Hmissing.
  rewrite (update_city_weather_dict_parsed _ _ _ _ _ _ Hok).
  rewrite (extract_report_missing _ Hmissing).
  split; reflexivity.
Qed.

(** C3 (as the code has it).  Whatever the step an error occurs in, the
    call ends in an exception and the dictionary is left as it was.  An
    error of the HTTP request, and the absence of an expected element, are
    not handled anywhere: the exception itself reaches the caller and
    nothing is printed. *)
Theorem update_error_halts_dict_unchanged E self st e w :
  fetch_parse_error E self st e →
  city_weather_dict (snd (update_city_weather_dict E self w))
  = city_weather_dict w
  ∧ match st with
    | Network | MissingElement =>
        fst (update_city_weather_dict E self w) = Raise e
        ∧ stdout (snd (update_city_weather_dict E self w)) = stdout w
    | File | Malformed =>
        ∃ x, fst (update_city_weather_dict E self w) = Raise x
    end.
Proof.
  intros Herr.
  destruct Herr as [tok url e Htok Hurl Hget | url body e Hfetch Hwrite
                   | url body e Hfetch Hwrite Hparse
                   | url body document e Hok Hextract].
  - rewrite (update_city_weather_dict_fetch_raises _ _ _ _ _
      (create_city_weather_data_file_network_error _ _ _ _ _ w Htok Hurl Hget)).
    cbn [fst snd city_weather_dict stdout]. auto.
  - rewrite (update_city_weather_dict_fetch_raises _ _ _ _ _
      (create_city_weather_data_file_file_error _ _ _ _ _ w Hfetch Hwrite)).
    cbn [fst snd city_weather_dict stdout]. eauto.
  - rewrite (update_city_weather_dict_malformed _ _ _ _ _ w Hfetch Hwrite Hparse).
    cbn [fst snd city_weather_dict stdout after_fetch]. eauto.
  - rewrite (update_city_weather_dict_parsed _ _ _ _ _ w Hok), Hextract.
    cbn [fst snd city_weather_dict stdout after_fetch]. auto.
Qed.

(** In the code as it stands the two [except WeatherException] clauses
    never fire: an error of the scratch file or of the XML parser also
    reaches the caller, and nothing is printed. *)
Lemma update_file_and_parser_errors_propagate E self st e w :
  fetch_parse_error E self st e →
  fst (update_city_weather_dict E self w) = Raise e
  ∧ stdout (snd (update_city_weather_dict E self w)) = stdout w.
Proof.
  intros Herr.
  destruct Herr as [tok url e Htok Hurl Hget | url body e Hfetch Hwrite
                   | url body e Hfetch Hwrite Hparse
                   | url body document e Hok Hextract].
  - by rewrite (update_city_weather_dict_fetch_raises _ _ _ _ _
      (create_city_weather_data_file_network_error _ _ _ _ _ w Htok Hurl Hget)).
  - by rewrite (update_city_weather_dict_fetch_raises _ _ _ _ _
      (create_city_weather_data_file_file_error _ _ _ _ _ w Hfetch Hwrite)).
  - by rewrite (update_city_weather_dict_malformed _ _ _ _ _ w Hfetch Hwrite Hparse).
  - by rewrite (update_city_weather_dict_parsed _ _ _ _ _ w Hok), Hextract.
Qed.

(** C3 (as stated) fails at each of the three steps it names: the error is
    not caught, and nothing is printed. *)
Lemma errors_not_caught_nor_reported :
  (¬ error_caught env_network_down sample_query empty_world
   ∧ ¬ error_reported env_network_down sample_query empty_world)
  ∧ (¬ error_caught (env_disk_full sample_body) sample_query empty_world
     ∧ ¬ error_reported (env_disk_full sample_body) sample_query empty_world)
  ∧ (¬ error_caught (env_malformed "<current") sample_query empty_world
     ∧ ¬ error_reported (env_malformed "<current") sample_query empty_world).
Proof.
  unfold error_caught, error_reported. repeat split.
  - intros H. exact (H URLError eq_refl).
  - intros [msg H]. vm_compute in H. discriminate H.
  - intros H. exact (H OSError eq_refl).
  - intros [msg H]. vm_compute in H. discriminate H.
  - intros H. exact (H ExpatError eq_refl).
  - intros [msg H]. vm_compute in H. discriminate H.
Qed.

Lemma update_error_halts_dict_unchanged_witness :
  fetch_parse_error env_network_down sample_query Network (External URLError)
  ∧ city_weather_dict (snd (update_city_weather_dict env_network_down
                              sample_query empty_world))
    = city_weather_dict empty_world
  ∧ fst (update_city_weather_dict env_network_down sample_query empty_world)
    = Raise (External URLError)
  ∧ stdout (snd (update_city_weather_dict env_network_down sample_query
                   empty_world)) = stdout empty_world.
Proof.
  assert (H : fetch_parse_error env_network_down sample_query Network
                (External URLError)).
  { eapply network_error; reflexivity. }
  split; [exact H |].
  exact (update_error_halts_dict_unchanged env_network_down sample_query
           Network (External URLError) empty_world H).
Defined.

Lemma sample_fetch_ok (root : node) :
  fetch_parse_ok (env_ok sample_body root) sample_query sample_url
                 sample_body root.
Proof.
  split; [| split; reflexivity].
  exists "metric". repeat split.
Defined.

Lemma update_missing_element_fails_witness :
  fetch_parse_ok (env_ok sample_body sample_without_wind) sample_query
                 sample_url sample_body sample_without_wind
  ∧ missing_expected_element sample_without_wind
  ∧ fst (update_city_weather_dict (env_ok sample_body sample_without_wind)
           sample_query empty_world) = Raise IndexError
  ∧ city_weather_dict
      (snd (update_city_weather_dict (env_ok sample_body sample_without_wind)
              sample_query empty_world))
    = city_weather_dict empty_world.
Proof.
  assert (Hmissing : missing_expected_element sample_without_wind).
  { unfold missing_expected_element. simpl. do 4 right. exact I. }
  split; [apply sample_fetch_ok |]. split; [exact Hmissing |].
  exact (update_missing_element_fails _ _ _ _ _ empty_world
           (sample_fetch_ok sample_without_wind) Hmissing).
Defined.

Lemma sample_well_formed :
  well_formed sample_document sample_document sample_temperature
              sample_humidity sample_wind sample_speed sample_pressure
              sample_clouds.
Proof. split; reflexivity. Defined.

Lemma update_stores_attribute_strings_witness :
  fetch_parse_ok (env_ok sample_body sample_document) sample_query
                 sample_url sample_body sample_document
  ∧ well_formed sample_document sample_document sample_temperature
                sample_humidity sample_wind sample_speed sample_pressure
                sample_clouds
  ∧ fst (update_city_weather_dict (env_ok sample_body sample_document)
           sample_query empty_world) = Ok tt
  ∧ city_weather_dict
      (snd (update_city_weather_dict (env_ok sample_body sample_document)
              sample_query empty_world)) !! PyStr "tel aviv"
    = Some sample_report.
Proof.
  split; [apply sample_fetch_ok |]. split; [exact sample_well_formed |].
  exact (update_stores_attribute_strings _ _ _ _ _ _ _ _ _ _ _ _ empty_world
           (sample_fetch_ok sample_document) sample_well_formed).
Defined.

(** ** Rendering *)

(** C7.  The report printed for a stored record shows the wind and the
    cloud description as [str.lower] returns them, and every other field
    as stored; the text is followed by the newline [print] adds. *)
Theorem print_report_lowercases_descriptions E self r w :
  city_weather_dict w !! city_name self = Some r →
  print_city_weather_report E self w =
    (Ok tt,
     {| city_weather_dict := city_weather_dict w;
        stdout := stdout w ++
          [ ("Weather report for " +:+ py_str (city_name self) +:+ ":" +:+ nl
             +:+ "Temperature is at " +:+ temperature_val (temperature r)
             +:+ " " +:+ temp_unit (temperature r) +:+ nl
             +:+ "Humidity is " +:+ humidity_val (humidity r)
             +:+ humidity_unit (humidity r) +:+ nl
             +:+ "Wind is at " +:+ wind_val (wind r) +:+ " speed meaning "
             +:+ str_lower E (wind_desc (wind r)) +:+ nl
             +:+ "Air pressure is " +:+ pressure_val (pressure r)
             +:+ " " +:+ pressure_unit (pressure r) +:+ nl
             +:+ "Clouds coverage is " +:+ clouds_val (clouds r)
             +:+ "% meaning " +:+ str_lower E (clouds_desc (clouds r)) +:+ nl)
            +:+ nl ];
        weather_xml := weather_xml w;
        requests := requests w |}).
Proof.
  intros Hr. unfold print_city_weather_report, dict_lookup. unfold_monad.
  rewrite Hr. reflexivity.
Qed.

Lemma print_report_lowercases_descriptions_witness :
  city_weather_dict capitals_world !! city_name capitals_query
  = Some capitals_report
  ∧ print_city_weather_report (env_ok sample_body sample_document)
      capitals_query capitals_world =
      (Ok tt,
       {| city_weather_dict := city_weather_dict capitals_world;
          stdout :=
            [ "Weather report for Tel Aviv:" +:+ nl
              +:+ "Temperature is at 288 Kelvin" +:+ nl
              +:+ "Humidity is 60%RH" +:+ nl
              +:+ "Wind is at 3 speed meaning light breeze" +:+ nl
              +:+ "Air pressure is 1012 hPa" +:+ nl
              +:+ "Clouds coverage is 40% meaning scattered clouds" +:+ nl
              +:+ nl ];
          weather_xml := None;
          requests := [] |}).
Proof.
  assert (H : city_weather_dict capitals_world !! city_name capitals_query
              = Some capitals_report) by reflexivity.
  split; [exact H |].
  exact (print_report_lowercases_descriptions
           (env_ok sample_body sample_document) capitals_query
           capitals_report capitals_world H).
Defined.

Lemma print_preserves_dict E self w :
  city_weather_dict (snd (print_city_weather_report E self w))
  = city_weather_dict w.
Proof.
  unfold print_city_weather_report, dict_lookup. unfold_monad.
  destruct (city_weather_dict w !! city_name self) as [r |]; [| reflexivity].
  destruct (py_format _ _); reflexivity.
Qed.

(** ** Successive queries *)

(** A call that succeeds went through every step. *)
Lemma update_city_weather_dict_ok_inv E self w w' :
  update_city_weather_dict E self w = (Ok tt, w') →
  ∃ url body document r,
    fetch_parse_ok E self url body document
    ∧ extract_report document = Ok r
    ∧ city_weather_dict w' = <[city_name self := r]> (city_weather_dict w).
Proof.
  intros H.
  destruct (dict_getitem unit_conversion_dict (units self)) as [tok | e] eqn:Htok.
  2: { unfold update_city_weather_dict, create_city_weather_data_file in H.
       unfold_monad_in H. rewrite Htok in H. discriminate H. }
  destruct (request_url self tok) as [url | e] eqn:Hurl.
  2: { unfold update_city_weather_dict, create_city_weather_data_file in H.
       unfold_monad_in H. rewrite Htok, Hurl in H. discriminate H. }
  destruct (http_get E url) as [e | body] eqn:Hget.
  { rewrite (update_city_weather_dict_fetch_raises _ _ _ _ _
      (create_city_weather_data_file_network_error _ _ _ _ _ w Htok Hurl Hget))
      in H. discriminate H. }
  assert (Hfetch : fetch_ok E self url body) by (exists tok; auto).
  destruct (file_write_error E) as [e |] eqn:Hwrite.
  { rewrite (update_city_weather_dict_fetch_raises _ _ _ _ _
      (create_city_weather_data_file_file_error _ _ _ _ _ w Hfetch Hwrite))
      in H. discriminate H. }
  destruct (minidom_parse E body) as [e | document] eqn:Hparse.
  { rewrite (update_city_weather_dict_malformed _ _ _ _ _ w Hfetch Hwrite Hparse)
      in H. discriminate H. }
  assert (Hok : fetch_parse_ok E self url body document) by (split; auto).
  rewrite (update_city_weather_dict_parsed _ _ _ _ _ w Hok) in H.
  destruct (extract_report document) as [r | e] eqn:Hextract;
    [| discriminate H].
  injection H as <-. exists url, body, document, r. auto.
Qed.

Lemma run_ok_inv E c u k w w' :
  run E c u k w = (Ok tt, w') →
  ∃ url body document r,
    fetch_parse_ok E (__init__ c u k) url body document
    ∧ extract_report document = Ok r
    ∧ city_weather_dict w' = <[c := r]> (city_weather_dict w).
Proof.
  intros H. unfold run in H. unfold mbind, M_bind in H.
  destruct (update_city_weather_dict E (__init__ c u k) w)
    as [[[] | e] w1] eqn:Hupdate; [| discriminate H].
  apply update_city_weather_dict_ok_inv in Hupdate
    as (url & body & document & r & Hok & Hextract & Hdict).
  exists url, body, document, r. split; [exact Hok |].
  split; [exact Hextract |].
  change (city_name (__init__ c u k)) with c in Hdict.
  rewrite <- Hdict.
  pose proof (print_preserves_dict E (__init__ c u k) w1) as Hprint.
  rewrite H in Hprint. exact Hprint.
Qed.

(** C8.  After two successful queries for the same city the dictionary is
    the initial one with the record of the second response stored for the
    city: nothing of the first record remains, and the stored record is
    the one [extract_report] computes from the second parsed response. *)
Theorem second_query_replaces_first E1 E2 c u1 k1 u2 k2 w0 w1 w2 :
  run E1 c u1 k1 w0 = (Ok tt, w1) →
  run E2 c u2 k2 w1 = (Ok tt, w2) →
  ∃ url body document r2,
    fetch_parse_ok E2 (__init__ c u2 k2) url body document
    ∧ extract_report document = Ok r2
    ∧ city_weather_dict w2 = <[c := r2]> (city_weather_dict w0)
    ∧ city_weather_dict w2 !! c = Some r2.
Proof.
  intros H1 H2.
  apply run_ok_inv in H1 as (url1 & body1 & document1 & r1 & _ & _ & Hdict1).
  apply run_ok_inv in H2 as (url2 & body2 & document2 & r2 & Hok & Hextract & Hdict2).
  exists url2, body2, document2, r2.
  split; [exact Hok |]. split; [exact Hextract |].
  rewrite Hdict2, Hdict1. split.
  - apply insert_insert_eq.
  - apply lookup_insert_eq.
Qed.

Lemma second_query_replaces_first_witness :
  run (env_ok sample_body sample_document)
      (PyStr "tel aviv") (PyStr "celsius") sample_key empty_world
  = (Ok tt, world_after_sample)
  ∧ run (env_ok later_body later_document)
        (PyStr "tel aviv") (PyStr "fahrenheit") sample_key world_after_sample
    = (Ok tt, world_after_later)
  ∧ ∃ url body document r2,
      fetch_parse_ok (env_ok later_body later_document)
        (__init__ (PyStr "tel aviv") (PyStr "fahrenheit") sample_key)
        url body document
      ∧ extract_report document = Ok r2
      ∧ city_weather_dict world_after_later
        = <[PyStr "tel aviv" := r2]> (city_weather_dict empty_world)
      ∧ city_weather_dict world_after_later !! PyStr "tel aviv" = Some r2.
Proof.
  assert (H1 : run (env_ok sample_body sample_document)
      (PyStr "tel aviv") (PyStr "celsius") sample_key empty_world
    = (Ok tt, world_after_sample)) by (vm_compute; reflexivity).
  assert (H2 : run (env_ok later_body later_document)
      (PyStr "tel aviv") (PyStr "fahrenheit") sample_key world_after_sample
    = (Ok tt, world_after_later)) by (vm_compute; reflexivity).
  split; [exact H1 |]. split; [exact H2 |].
  exact (second_query_replaces_first _ _ _ _ _ _ _ _ _ _ H1 H2).
Defined.

(** The first record leaves no trace: the sample stored ["celsius"] and a
    wind description, the dictionary now holds the later record alone. *)
Example second_query_sample :
  city_weather_dict world_after_sample = {[ PyStr "tel aviv" := sample_report ]}
  ∧ city_weather_dict world_after_later = {[ PyStr "tel aviv" := later_report ]}.
Proof. split; vm_compute; reflexivity. Qed.

(** ** The request *)

Lemma str_append_assoc (s1 s2 s3 : string) :
  (s1 +:+ s2) +:+ s3 = s1 +:+ (s2 +:+ s3).
Proof.
  induction s1 as [| c s1 IH]; [reflexivity |].
  change (String c ((s1 +:+ s2) +:+ s3) = String c (s1 +:+ (s2 +:+ s3))).
  f_equal. exact IH.
Qed.

(** The URL built for an object made by the constructor from two strings. *)
Lemma request_url_init (city key : string) (u : pyval) (tok : string) :
  request_url (__init__ (PyStr city) u (PyStr key)) tok
  = Ok (SERVER_NAME +:+ "/data/2.5/weather?q=" +:+ city +:+ "&appid=" +:+ key
        +:+ "&mode=xml&units=" +:+ tok).
Proof.
  unfold request_url, str_add, __init__; cbn [city_name api_key mode].
  cbn [mbind result_bind]. f_equal.
  rewrite !str_append_assoc. reflexivity.
Qed.

(** The fetch step hands exactly one URL to urlopen, the one it built. *)
Lemma create_city_weather_data_file_requests E self tok url w :
  dict_getitem unit_conversion_dict (units self) = Ok tok →
  request_url self tok = Ok url →
  requests (snd (create_city_weather_data_file E self w)) = requests w ++ [url].
Proof.
  intros Htok Hurl.
  unfold create_city_weather_data_file. unfold_monad.
  rewrite Htok, Hurl. unfold urlopen_read, write_city_file.
  destruct (http_get E url) as [e | body]; [reflexivity |].
  destruct (file_write_error E) as [e |]; reflexivity.
Qed.

(** C9.  For string city name and key and a unit with a provider token,
    the URL requested is the host followed by
    [/data/2.5/weather?q=<city>&appid=<key>&mode=xml&units=<token>], and
    the token is the empty string for kelvin, [metric] for celsius and
    [imperial] for fahrenheit. *)
Theorem fetch_requests_documented_url E (city key u tok : string) w :
  dict_get unit_conversion_dict u = Some tok →
  requests (snd (create_city_weather_data_file E
                   (__init__ (PyStr city) (PyStr u) (PyStr key)) w))
  = requests w ++
      [ "http://api.openweathermap.org" +:+ "/data/2.5/weather?q=" +:+ city
        +:+ "&appid=" +:+ key +:+ "&mode=xml&units=" +:+ tok ]
  ∧ (u, tok) ∈ [ ("kelvin", EmptyString); ("celsius", "metric");
                 ("fahrenheit", "imperial") ].
Proof.
  intros Htok. split; [| by apply dict_get_unit_conversion].
  apply create_city_weather_data_file_requests with (tok := tok).
  - cbn [units __init__ dict_getitem]. by rewrite Htok.
  - apply request_url_init.
Qed.

Lemma fetch_requests_documented_url_witness :
  dict_get unit_conversion_dict "celsius" = Some "metric"
  ∧ requests (snd (create_city_weather_data_file
                     (env_ok sample_body sample_document)
                     (__init__ (PyStr "tel aviv") (PyStr "celsius")
                               (PyStr "0e0ab2271488dc844f64ead7184b53fc"))
                     empty_world))
    = requests empty_world ++
        [ "http://api.openweathermap.org" +:+ "/data/2.5/weather?q="
          +:+ "tel aviv" +:+ "&appid=" +:+ "0e0ab2271488dc844f64ead7184b53fc"
          +:+ "&mode=xml&units=" +:+ "metric" ]
  ∧ ("celsius", "metric") ∈ [ ("kelvin", EmptyString); ("celsius", "metric");
                              ("fahrenheit", "imperial") ].
Proof.
  split; [reflexivity |].
  exact (fetch_requests_documented_url (env_ok sample_body sample_document)
           "tel aviv" "0e0ab2271488dc844f64ead7184b53fc" "celsius" "metric"
           empty_world eq_refl).
Defined.

Example request_urls_by_unit (E : env) (w : world) :
  requests (snd (create_city_weather_data_file E
    (__init__ (PyStr "paris") (PyStr "kelvin") (PyStr "k")) w))
  = requests w ++ ["http://api.openweathermap.org/data/2.5/weather?q=paris&appid=k&mode=xml&units="]
  ∧ requests (snd (create_city_weather_data_file E
    (__init__ (PyStr "paris") (PyStr "fahrenheit") (PyStr "k")) w))
  = requests w ++ ["http://api.openweathermap.org/data/2.5/weather?q=paris&appid=k&mode=xml&units=imperial"].
Proof.
  split.
  - by apply create_city_weather_data_file_requests with (tok := EmptyString).
  - by apply create_city_weather_data_file_requests with (tok := "imperial").
Qed.

(** ** The constructor and the entry points *)

Lemma dict_getitem_raises d key e :
  dict_getitem d key = Raise e → e = KeyError.
Proof.
  unfold dict_getitem. destruct key as [| z | k]; try by intros [= <-].
  destruct (dict_get d k); [discriminate |]. by intros [= <-].
Qed.

Lemma request_url_raises self tok e :
  request_url self tok = Raise e → e = TypeError.
Proof.
  unfold request_url, str_add.
  destruct (city_name self), (api_key self), (mode self);
    cbn [mbind result_bind]; intros [= <-]; reflexivity.
Qed.

(** No step of the fetch-parse sequence raises a [WeatherException]. *)
Lemma update_city_weather_dict_no_WeatherException E self w :
  raised_WeatherException (fst (update_city_weather_dict E self w)) = false.
Proof.
  destruct (dict_getitem unit_conversion_dict (units self)) as [tok | e] eqn:Htok.
  2: { apply dict_getitem_raises in Htok as Hkind. subst e.
       unfold update_city_weather_dict, create_city_weather_data_file.
       unfold_monad. by rewrite Htok. }
  destruct (request_url self tok) as [url | e] eqn:Hurl.
  2: { apply request_url_raises in Hurl as Hkind. subst e.
       unfold update_city_weather_dict, create_city_weather_data_file.
       unfold_monad. by rewrite Htok, Hurl. }
  destruct (http_get E url) as [e | body] eqn:Hget.
  { by rewrite (update_city_weather_dict_fetch_raises _ _ _ _ _
      (create_city_weather_data_file_network_error _ _ _ _ _ w Htok Hurl Hget)). }
  assert (Hfetch : fetch_ok E self url body) by (exists tok; auto).
  destruct (file_write_error E) as [e |] eqn:Hwrite.
  { by rewrite (update_city_weather_dict_fetch_raises _ _ _ _ _
      (create_city_weather_data_file_file_error _ _ _ _ _ w Hfetch Hwrite)). }
  destruct (minidom_parse E body) as [e | document] eqn:Hparse.
  { by rewrite (update_city_weather_dict_malformed _ _ _ _ _ w Hfetch Hwrite Hparse). }
  assert (Hok : fetch_parse_ok E self url body document) by (split; auto).
  rewrite (update_city_weather_dict_parsed _ _ _ _ _ w Hok).
  destruct (extract_report document) as [r | e] eqn:Hextract; [reflexivity |].
  apply extract_report_raises in Hextract. by subst e.
Qed.

Lemma print_city_weather_report_no_WeatherException E self w :
  raised_WeatherException (fst (print_city_weather_report E self w)) = false.
Proof.
  unfold print_city_weather_report, dict_lookup. unfold_monad.
  destruct (city_weather_dict w !! city_name self) as [r |]; reflexivity.
Qed.

Lemma query_no_WeatherException E self w :
  raised_WeatherException
    (fst ((update_city_weather_dict E self;;
           print_city_weather_report E self) w)) = false.
Proof.
  unfold mbind, M_bind.
  pose proof (update_city_weather_dict_no_WeatherException E self w) as Hupdate.
  destruct (update_city_weather_dict E self w) as [[[] | e] w1].
  - apply print_city_weather_report_no_WeatherException.
  - exact Hupdate.
Qed.

(** C10.  The constructor stores its three arguments as they are, whatever
    they are, and neither [run] nor [main] goes through a setter: the
    [units] setter refuses the very value the constructor has stored, and
    no call of [run] or [main] ends in the [WeatherException] of a
    setter. *)
Theorem constructor_and_entry_points_do_not_validate
    E (c u k : pyval) (argv : list string) w :
  city_name (__init__ c u k) = c
  ∧ units (__init__ c u k) = u
  ∧ api_key (__init__ c u k) = k
  ∧ units_setter (__init__ c u k) u = Raise (WeatherException units_msg)
  ∧ raised_WeatherException (fst (run E c u k w)) = false
  ∧ raised_WeatherException (fst (main E argv w)) = false.
Proof.
  repeat split.
  - unfold units_setter, unit_conversion_dict, dict_keys.
    cbn [map fst]. by rewrite units_loop_two_keys.
  - apply query_no_WeatherException.
  - unfold main. unfold mbind at 1. unfold M_bind at 1. unfold parse_args.
    destruct (argparse E argv) as [code out | city temp_units key];
      [reflexivity |].
    destruct (bool_decide (temp_units ∈ temp_units_choices));
      [apply query_no_WeatherException | reflexivity].
Qed.

Example constructor_keeps_invalid_arguments :
  __init__ (PyInt 42) (PyStr "rankine") PyNone
  = {| city_name := PyInt 42; units := PyStr "rankine"; api_key := PyNone;
       mode := PyStr "xml" |}
  ∧ fst (run (env_ok sample_body sample_document)
             (PyStr "tel aviv") (PyStr "rankine") sample_key empty_world)
    = Raise KeyError
  ∧ fst (run (env_ok sample_body sample_document)
             (PyInt 42) (PyStr "celsius") sample_key empty_world)
    = Raise TypeError
  ∧ fst (run (env_ok sample_body sample_document)
             (PyStr "tel aviv") (PyStr "celsius") PyNone empty_world)
    = Raise TypeError
  ∧ fst (main (env_ok sample_body sample_document)
              ["tel aviv"; "celsius"; EmptyString] empty_world)
    = Ok tt.
Proof. repeat split. Qed.

(** * Further properties *)

(** ** The call as a whole *)

(** [update_city_weather_dict], step by step. *)
Lemma update_city_weather_dict_closed_form E self w :
  update_city_weather_dict E self w =
    match dict_getitem unit_conversion_dict (units self) with
    | Raise e => (Raise e, w)
    | Ok tok =>
        match request_url self tok with
        | Raise e => (Raise e, w)
        | Ok url =>
            match http_get E url with
            | inl e => (Raise (External e), after_request w url)
            | inr body =>
                match file_write_error E with
                | Some e => (Raise (External e), after_failed_write E w url)
                | None =>
                    match minidom_parse E body with
                    | inl e => (Raise (External e), after_fetch w url body)
                    | inr document =>
                        match extract_report document with
                        | Raise e => (Raise e, after_fetch w url body)
                        | Ok r => (Ok tt, after_store w url body (city_name self) r)
                        end
                    end
                end
            end
        end
    end.
Proof.
  destruct (dict_getitem unit_conversion_dict (units self)) as [tok | e] eqn:Htok.
  2: { unfold update_city_weather_dict, create_city_weather_data_file.
       unfold_monad. by rewrite Htok. }
  destruct (request_url self tok) as [url | e] eqn:Hurl.
  2: { unfold update_city_weather_dict, create_city_weather_data_file.
       unfold_monad. by rewrite Htok, Hurl. }
  destruct (http_get E url) as [e | body] eqn:Hget.
  { exact (update_city_weather_dict_fetch_raises _ _ _ _ _
      (create_city_weather_data_file_network_error _ _ _ _ _ w Htok Hurl Hget)). }
  assert (Hfetch : fetch_ok E self url body) by (exists tok; auto).
  destruct (file_write_error E) as [e |] eqn:Hwrite.
  { exact (update_city_weather_dict_fetch_raises _ _ _ _ _
      (create_city_weather_data_file_file_error _ _ _ _ _ w Hfetch Hwrite)). }
  destruct (minidom_parse E body) as [e | document] eqn:Hparse.
  { exact (update_city_weather_dict_malformed _ _ _ _ _ w Hfetch Hwrite Hparse). }
  assert (Hok : fetch_parse_ok E self url body document) by (split; auto).
  rewrite (update_city_weather_dict_parsed _ _ _ _ _ w Hok).
  destruct (extract_report document); reflexivity.
Qed.

Ltac update_cases E self :=
  rewrite !update_city_weather_dict_closed_form;
  destruct (dict_getitem unit_conversion_dict (units self)) as [?tok | ?e] eqn:?Htok;
  [ destruct (request_url self tok) as [?url | ?e] eqn:?Hurl;
    [ destruct (http_get E url) as [?e | ?body] eqn:?Hget;
      [ | destruct (file_write_error E) as [?e |] eqn:?Hwrite;
          [ | destruct (minidom_parse E body) as [?e | ?document] eqn:?Hparse;
              [ | destruct (extract_report document) as [?r | ?e] eqn:?Hextract ] ] ]
    | ]
  | ].

(** X6.  The call never prints: the two handlers that would are never
    entered, so standard output is the same after the call as before,
    whatever the outside does and however the call ends. *)
Theorem update_never_prints E self w :
  stdout (snd (update_city_weather_dict E self w)) = stdout w.
Proof. update_cases E self; reflexivity. Qed.

(** X7.  A call that ends in an exception, whichever it is, leaves the
    dictionary exactly as it was. *)
Theorem update_raise_keeps_dict E self w e :
  fst (update_city_weather_dict E self w) = Raise e →
  city_weather_dict (snd (update_city_weather_dict E self w))
  = city_weather_dict w.
Proof. update_cases E self; try reflexivity. discriminate. Qed.

Lemma update_raise_keeps_dict_witness :
  fst (update_city_weather_dict (env_ok sample_body sample_document)
         default_query sample_world) = Raise TypeError
  ∧ city_weather_dict
      (snd (update_city_weather_dict (env_ok sample_body sample_document)
              default_query sample_world))
    = city_weather_dict sample_world.
Proof.
  assert (H : fst (update_city_weather_dict
                     (env_ok sample_body sample_document)
                     default_query sample_world) = Raise TypeError)
    by reflexivity.
  split; [exact H |].
  exact (update_raise_keeps_dict _ _ _ _ H).
Defined.

(** X8.  Whatever the outcome, the call touches no entry but the one of
    its own city. *)
Theorem update_keeps_other_cities E self w (city : pyval) :
  city ≠ city_name self →
  city_weather_dict (snd (update_city_weather_dict E self w)) !! city
  = city_weather_dict w !! city.
Proof.
  intros Hne. update_cases E self; try reflexivity.
  cbn [snd after_store city_weather_dict]. by rewrite lookup_insert_ne.
Qed.

Lemma update_keeps_other_cities_witness :
  PyStr "paris" ≠ city_name sample_query
  ∧ city_weather_dict
      (snd (update_city_weather_dict (env_ok later_body later_document)
              sample_query
              {| city_weather_dict := {[ PyStr "paris" := sample_report ]};
                 stdout := []; weather_xml := None; requests := [] |}))
      !! PyStr "paris"
    = city_weather_dict
        {| city_weather_dict := {[ PyStr "paris" := sample_report ]};
           stdout := []; weather_xml := None; requests := [] |}
      !! PyStr "paris".
Proof.
  assert (H : PyStr "paris" ≠ city_name sample_query) by discriminate.
  split; [exact H |].
  exact (update_keeps_other_cities _ _ _ _ H).
Defined.

(** X9.  The call ends normally, or in [KeyError], [TypeError],
    [IndexError] or an exception of the outside; it ends in nothing else,
    and in particular never in the [UnboundLocalError] that entering the
    parse handler would lead to. *)
Theorem update_outcomes E self w :
  update_outcome (fst (update_city_weather_dict E self w)).
Proof.
  unfold update_outcome. update_cases E self; cbn [fst]; eauto 10.
  - apply extract_report_raises in Hextract. subst. auto.
  - apply request_url_raises in Hurl. subst. auto.
  - apply dict_getitem_raises in Htok. subst. auto.
Qed.

(** X10.  The contents the scratch file had before the call play no part:
    the file is rewritten before it is read, so the outcome and the
    dictionary are the same whatever the file held. *)
Theorem update_ignores_stale_file E self w (contents : option string) :
  fst (update_city_weather_dict E self (with_weather_xml w contents))
  = fst (update_city_weather_dict E self w)
  ∧ city_weather_dict
      (snd (update_city_weather_dict E self (with_weather_xml w contents)))
    = city_weather_dict (snd (update_city_weather_dict E self w)).
Proof. update_cases E self; split; reflexivity. Qed.

(** ** Arguments the setters would refuse *)

Lemma dict_getitem_unknown_unit (u : pyval) :
  u ∉ [ PyStr "kelvin"; PyStr "celsius"; PyStr "fahrenheit" ] →
  dict_getitem unit_conversion_dict u = Raise KeyError.
Proof.
  intros Hu. destruct u as [| z | s]; try reflexivity.
  unfold dict_getitem, unit_conversion_dict. cbn [dict_get].
  destruct (String.eqb_spec s "fahrenheit") as [-> | _]; [set_solver |].
  destruct (String.eqb_spec s "celsius") as [-> | _]; [set_solver |].
  destruct (String.eqb_spec s "kelvin") as [-> | _]; [set_solver |].
  reflexivity.
Qed.

Lemma dict_getitem_known_unit (u : string) :
  u ∈ temp_units_choices →
  ∃ tok, dict_get unit_conversion_dict u = Some tok.
Proof.
  unfold temp_units_choices. intros Hu. set_unfold in Hu.
  destruct Hu as [-> | [-> | [-> | []]]]; eexists; reflexivity.
Qed.

Lemma request_url_not_str self tok :
  type_is_str (city_name self) && type_is_str (api_key self) = false →
  request_url self tok = Raise TypeError.
Proof.
  unfold request_url, str_add.
  destruct (city_name self), (api_key self); cbn; try discriminate;
    reflexivity.
Qed.

(** X2.  A unit outside the three known names is met by the table lookup
    of the fetch step: [run] ends in [KeyError] before anything happens,
    with no request issued, no file written and nothing printed. *)
Theorem run_unknown_unit_KeyError E (c u k : pyval) w :
  u ∉ [ PyStr "kelvin"; PyStr "celsius"; PyStr "fahrenheit" ] →
  run E c u k w = (Raise KeyError, w).
Proof.
  intros Hu. unfold run. unfold mbind, M_bind.
  rewrite update_city_weather_dict_closed_form.
  cbn [units __init__]. by rewrite (dict_getitem_unknown_unit u Hu).
Qed.

Lemma run_unknown_unit_KeyError_witness :
  (PyStr "rankine" ∉ [ PyStr "kelvin"; PyStr "celsius"; PyStr "fahrenheit" ])
  ∧ run (env_ok sample_body sample_document)
        (PyStr "tel aviv") (PyStr "rankine") sample_key sample_world
    = (Raise KeyError, sample_world).
Proof.
  assert (H : PyStr "rankine"
              ∉ [ PyStr "kelvin"; PyStr "celsius"; PyStr "fahrenheit" ]).
  { apply (bool_decide_unpack _). vm_compute. exact I. }
  split; [exact H |].
  exact (run_unknown_unit_KeyError _ _ _ _ _ H).
Defined.

(** X3.  With a known unit, a city name or a key that is not a string
    (the default key [None], say) stops [run] at the concatenation of the
    URL: [TypeError], again before any request, file or output. *)
Theorem run_non_string_TypeError E (c u k : pyval) w :
  u ∈ [ PyStr "kelvin"; PyStr "celsius"; PyStr "fahrenheit" ] →
  type_is_str c && type_is_str k = false →
  run E c u k w = (Raise TypeError, w).
Proof.
  intros Hu Hstr. unfold run. unfold mbind, M_bind.
  rewrite update_city_weather_dict_closed_form.
  cbn [units __init__].
  assert (∃ tok, dict_getitem unit_conversion_dict u = Ok tok) as [tok Htok].
  { set_unfold in Hu. destruct Hu as [-> | [-> | [-> | []]]]; eexists; reflexivity. }
  rewrite Htok. by rewrite request_url_not_str.
Qed.

Lemma run_non_string_TypeError_witness :
  default_units ∈ [ PyStr "kelvin"; PyStr "celsius"; PyStr "fahrenheit" ]
  ∧ type_is_str default_city_name && type_is_str default_api_key = false
  ∧ run env_network_down default_city_name default_units default_api_key
        empty_world
    = (Raise TypeError, empty_world).
Proof.
  assert (H : default_units
              ∈ [ PyStr "kelvin"; PyStr "celsius"; PyStr "fahrenheit" ]).
  { apply (bool_decide_unpack _). vm_compute. exact I. }
  split; [exact H |]. split; [reflexivity |].
  exact (run_non_string_TypeError env_network_down default_city_name
           default_units default_api_key empty_world H eq_refl).
Defined.

(** X1.  The [api_key] setter never stores a key: with no frame left it
    ends in [RecursionError], otherwise in [RecursionError] for a true
    value and in [WeatherException] for a false one ([None], the empty
    string, zero). *)
Theorem api_key_setter_never_stores (depth : nat) self (val : pyval) :
  api_key_setter depth self val =
    match depth with
    | O => Raise RecursionError
    | S _ => if truthy val then Raise RecursionError
             else Raise (WeatherException api_key_msg)
    end.
Proof.
  destruct depth as [| depth]; [reflexivity |].
  destruct (truthy val) eqn:Hval.
  - by apply api_key_setter_truthy.
  - by apply api_key_setter_falsy.
Qed.

(** ** Rendering and the whole query *)

Lemma py_format_report (lower : string → string) (city : pyval) (r : report) :
  py_format report_format
    [ city;
      PyStr (temperature_val (temperature r));
      PyStr (temp_unit (temperature r));
      PyStr (humidity_val (humidity r));
      PyStr (humidity_unit (humidity r));
      PyStr (wind_val (wind r));
      PyStr (lower (wind_desc (wind r)));
      PyStr (pressure_val (pressure r));
      PyStr (pressure_unit (pressure r));
      PyStr (clouds_val (clouds r));
      PyStr (lower (clouds_desc (clouds r))) ]
  = Ok (report_text lower city r).
Proof. reflexivity. Qed.

Lemma print_city_weather_report_found E self r w :
  city_weather_dict w !! city_name self = Some r →
  print_city_weather_report E self w
  = (Ok tt, after_print w (report_text (str_lower E) (city_name self) r +:+ nl)).
Proof.
  intros Hr. unfold print_city_weather_report, dict_lookup. unfold_monad.
  rewrite Hr, py_format_report. reflexivity.
Qed.

(** X4.  Asked for a city that has no entry, the rendering step ends in
    [KeyError] and prints nothing. *)
Theorem print_unknown_city_KeyError E self w :
  city_weather_dict w !! city_name self = None →
  print_city_weather_report E self w = (Raise KeyError, w).
Proof.
  intros Hr. unfold print_city_weather_report, dict_lookup. unfold_monad.
  by rewrite Hr.
Qed.

Lemma print_unknown_city_KeyError_witness :
  city_weather_dict sample_world !! city_name default_query = None
  ∧ print_city_weather_report env_network_down default_query sample_world
    = (Raise KeyError, sample_world).
Proof.
  assert (H : city_weather_dict sample_world !! city_name default_query = None)
    by reflexivity.
  split; [exact H |].
  exact (print_unknown_city_KeyError env_network_down default_query
           sample_world H).
Defined.

(** X5.  The rendering step reads and prints: whatever it is asked, the
    dictionary, the scratch file and the requests issued are as before. *)
Theorem print_is_read_only E self w :
  city_weather_dict (snd (print_city_weather_report E self w))
  = city_weather_dict w
  ∧ weather_xml (snd (print_city_weather_report E self w)) = weather_xml w
  ∧ requests (snd (print_city_weather_report E self w)) = requests w.
Proof.
  destruct (city_weather_dict w !! city_name self) as [r |] eqn:Hr.
  - by rewrite (print_city_weather_report_found E _ _ _ Hr).
  - unfold print_city_weather_report, dict_lookup. unfold_monad.
    by rewrite Hr.
Qed.

(** [run], step by step: the rendering step finds the entry the parse
    step has just stored. *)
Lemma query_closed_form E self w :
  (update_city_weather_dict E self;; print_city_weather_report E self) w =
    match update_city_weather_dict E self w with
    | (Ok _, w1) =>
        match city_weather_dict w1 !! city_name self with
        | Some r =>
            (Ok tt, after_print w1
                      (report_text (str_lower E) (city_name self) r +:+ nl))
        | None => (Raise KeyError, w1)
        end
    | (Raise e, w1) => (Raise e, w1)
    end.
Proof.
  unfold mbind at 1. unfold M_bind at 1.
  destruct (update_city_weather_dict E self w) as [[[] | e] w1];
    [| reflexivity].
  destruct (city_weather_dict w1 !! city_name self) as [r |] eqn:Hr.
  - by apply print_city_weather_report_found.
  - unfold print_city_weather_report, dict_lookup. unfold_monad.
    by rewrite Hr.
Qed.

(** X11.  In [run] the rendering step cannot fail: the query ends as its
    fetch-parse step ends. *)
Theorem run_ends_as_update_does E (c u k : pyval) w :
  fst (run E c u k w)
  = fst (update_city_weather_dict E (__init__ c u k) w).
Proof.
  unfold run. rewrite query_closed_form.
  update_cases E (__init__ c u k); try reflexivity.
  cbn [after_store city_weather_dict]. by rewrite lookup_insert_eq.
Qed.

(** X12.  A query whose fetch and parse succeed stores the record of the
    response for its city and prints the report of that very record, once,
    its two descriptions as [str.lower] returns them; the scratch file
    holds the response and one request was issued. *)
Theorem run_stores_and_prints E (c u k : pyval) url body document r w :
  fetch_parse_ok E (__init__ c u k) url body document →
  extract_report document = Ok r →
  run E c u k w
  = (Ok tt,
     {| city_weather_dict := <[c := r]> (city_weather_dict w);
        stdout := stdout w ++ [report_text (str_lower E) c r +:+ nl];
        weather_xml := Some body;
        requests := requests w ++ [url] |}).
Proof.
  intros Hok Hextract. unfold run. rewrite query_closed_form.
  rewrite (update_city_weather_dict_parsed _ _ _ _ _ w Hok), Hextract.
  cbn [city_weather_dict city_name __init__].
  by rewrite lookup_insert_eq.
Qed.

Lemma run_stores_and_prints_witness :
  fetch_parse_ok (env_ok sample_body sample_document)
    (__init__ (PyStr "tel aviv") (PyStr "celsius") sample_key)
    sample_url sample_body sample_document
  ∧ extract_report sample_document = Ok sample_report
  ∧ run (env_ok sample_body sample_document)
        (PyStr "tel aviv") (PyStr "celsius") sample_key empty_world
    = (Ok tt,
       {| city_weather_dict :=
            <[PyStr "tel aviv" := sample_report]> (city_weather_dict empty_world);
          stdout := stdout empty_world
                    ++ [report_text ascii_lower (PyStr "tel aviv") sample_report
                        +:+ nl];
          weather_xml := Some sample_body;
          requests := requests empty_world ++ [sample_url] |}).
Proof.
  split; [exact (sample_fetch_ok sample_document) |].
  split; [reflexivity |].
  exact (run_stores_and_prints _ _ _ _ _ _ _ _ empty_world
           (sample_fetch_ok sample_document) eq_refl).
Defined.

(** ** The unit table, forwards and backwards *)

(** X13.  Sending a unit through the table and the provider's token back
    through the parse step restores the unit's name for celsius only: the
    token of fahrenheit comes back as ["imperial"], and that of kelvin as
    the empty string. *)
Theorem unit_round_trip_only_celsius (u tok : string) :
  dict_get unit_conversion_dict u = Some tok →
  temp_unit_of tok = Ok (if String.eqb u "celsius" then u else tok)
  ∧ (temp_unit_of tok = Ok u ↔ u = "celsius").
Proof.
  intros Htok. apply dict_get_unit_conversion in Htok. set_unfold in Htok.
  destruct Htok as [[= -> ->] | [[= -> ->] | [[= -> ->] | []]]];
    (split; [reflexivity |]); split; first [discriminate | reflexivity].
Qed.

Lemma unit_round_trip_only_celsius_witness :
  dict_get unit_conversion_dict "fahrenheit" = Some "imperial"
  ∧ temp_unit_of "imperial"
    = Ok (if String.eqb "fahrenheit" "celsius" then "fahrenheit" else "imperial")
  ∧ (temp_unit_of "imperial" = Ok "fahrenheit" ↔ "fahrenheit" = "celsius").
Proof.
  split; [reflexivity |].
  exact (unit_round_trip_only_celsius "fahrenheit" "imperial" eq_refl).
Defined.

(** ** Complete and incomplete responses *)

(** X14.  The record is extracted exactly from the responses that have
    every expected element: attributes play no part in success, and the
    only failure is the [IndexError] of a missing element. *)
Theorem extract_report_succeeds_iff_complete (document : node) :
  ((∃ r, extract_report document = Ok r) ↔ ¬ missing_expected_element document)
  ∧ (extract_report document = Raise IndexError
     ↔ missing_expected_element document).
Proof.
  assert (Hcomplete : ¬ missing_expected_element document →
                      ∃ r, extract_report document = Ok r).
  { unfold missing_expected_element, lacks, extract_report. intros Hnot.
    destruct (Document_getElementsByTagName document "current")
      as [| cur rest]; [by destruct Hnot |].
    cbn [item0 mbind result_bind].
    destruct (getElementsByTagName cur "temperature") as [| t ?];
      [destruct Hnot; auto |].
    cbn [item0 mbind result_bind].
    rewrite temp_unit_of_spec. cbn [mbind result_bind].
    destruct (getElementsByTagName cur "humidity") as [| h ?];
      [destruct Hnot; auto |].
    cbn [item0 mbind result_bind].
    destruct (getElementsByTagName cur "wind") as [| wd ?];
      [destruct Hnot; auto 10 |].
    cbn [item0 mbind result_bind].
    destruct (getElementsByTagName wd "speed") as [| s ?];
      [destruct Hnot; auto 10 |].
    cbn [item0 mbind result_bind].
    destruct (getElementsByTagName cur "clouds") as [| c ?];
      [destruct Hnot; auto 10 |].
    cbn [item0 mbind result_bind].
    destruct (getElementsByTagName cur "pressure") as [| p ?];
      [destruct Hnot; auto 10 |].
    cbn [item0 mbind result_bind]. eauto. }
  assert (Hraise : ∀ e, extract_report document = Raise e →
                        missing_expected_element document).
  { unfold missing_expected_element, lacks, extract_report. intros e.
    destruct (Document_getElementsByTagName document "current")
      as [| cur rest]; [done |].
    cbn [item0 mbind result_bind].
    destruct (getElementsByTagName cur "temperature") as [| t ?]; [auto |].
    cbn [item0 mbind result_bind].
    rewrite temp_unit_of_spec. cbn [mbind result_bind].
    destruct (getElementsByTagName cur "humidity") as [| h ?]; [auto |].
    cbn [item0 mbind result_bind].
    destruct (getElementsByTagName cur "wind") as [| wd ?]; [auto 10 |].
    cbn [item0 mbind result_bind].
    destruct (getElementsByTagName wd "speed") as [| s ?]; [auto 10 |].
    cbn [item0 mbind result_bind].
    destruct (getElementsByTagName cur "clouds") as [| c ?]; [auto 10 |].
    cbn [item0 mbind result_bind].
    destruct (getElementsByTagName cur "pressure") as [| p ?]; [auto 10 |].
    cbn [item0 mbind result_bind]. discriminate. }
  split; split.
  - intros [r Hr] Hmissing.
    rewrite (extract_report_missing _ Hmissing) in Hr. discriminate.
  - exact Hcomplete.
  - apply Hraise.
  - apply extract_report_missing.
Qed.

(** ** The command line *)

Lemma request_url_query (city key : string) (u : pyval) (tok : string) :
  request_url (__init__ (PyStr city) u (PyStr key)) tok
  = Ok (query_url city key tok).
Proof. rewrite request_url_init. reflexivity. Qed.

(** What [parse_args] returns are positionals of argparse, the second of
    them among the [choices]. *)
Lemma parse_args_ok_inv E argv c u k w :
  fst (parse_args E argv w) = Ok (c, u, k) →
  argparse E argv = Positionals c u k ∧ u ∈ temp_units_choices.
Proof.
  unfold parse_args.
  destruct (argparse E argv) as [code out | c' u' k']; [discriminate |].
  case_bool_decide as Hu; [| discriminate].
  cbn [fst]. intros [= -> -> ->]. auto.
Qed.

Lemma main_positionals E argv c u k w :
  argparse E argv = Positionals c u k →
  u ∈ temp_units_choices →
  main E argv w = run E (PyStr c) (PyStr u) (PyStr k) w.
Proof.
  intros Hargv Hu. unfold main, run.
  unfold mbind at 1. unfold M_bind at 1. unfold parse_args.
  rewrite Hargv, bool_decide_eq_true_2 by exact Hu. reflexivity.
Qed.

(** X15.  When the word argparse takes as [temp_units] is not one of the
    three [choices], [main] ends with status 2 before any object is
    built: no request, no file, nothing on standard output. *)
Theorem main_rejects_unknown_unit E (argv : list string) (c u k : string) w :
  argparse E argv = Positionals c u k →
  u ∉ temp_units_choices →
  main E argv w = (Raise (SystemExit 2), w).
Proof.
  intros Hargv Hu. unfold main.
  unfold mbind at 1. unfold M_bind at 1. unfold parse_args.
  rewrite Hargv, bool_decide_eq_false_2 by exact Hu. reflexivity.
Qed.

Lemma main_rejects_unknown_unit_witness :
  argparse (env_ok sample_body sample_document) ["tel aviv"; "rankine"; "KEY"]
  = Positionals "tel aviv" "rankine" "KEY"
  ∧ ("rankine" ∉ temp_units_choices)
  ∧ main (env_ok sample_body sample_document)
         ["tel aviv"; "rankine"; "KEY"] empty_world
    = (Raise (SystemExit 2), empty_world).
Proof.
  assert (H : "rankine" ∉ temp_units_choices).
  { apply (bool_decide_unpack _). vm_compute. exact I. }
  split; [reflexivity |]. split; [exact H |].
  exact (main_rejects_unknown_unit (env_ok sample_body sample_document)
           ["tel aviv"; "rankine"; "KEY"] "tel aviv" "rankine" "KEY"
           empty_world eq_refl H).
Defined.

(** X16.  Whenever [parse_args] returns, [main] issues the request: the
    unit returned has a token, city and key are strings, and exactly one
    URL, the one of the query, is handed to urlopen. *)
Theorem main_issues_the_request E (argv : list string) (c u k : string) w :
  fst (parse_args E argv w) = Ok (c, u, k) →
  ∃ tok, dict_get unit_conversion_dict u = Some tok
         ∧ requests (snd (main E argv w)) = requests w ++ [query_url c k tok].
Proof.
  intros Hparse. apply parse_args_ok_inv in Hparse as [Hargv Hu].
  destruct (dict_getitem_known_unit u Hu) as [tok Htok].
  exists tok. split; [exact Htok |].
  rewrite (main_positionals _ _ _ _ _ _ Hargv Hu). unfold run.
  rewrite query_closed_form, update_city_weather_dict_closed_form.
  change (units (__init__ (PyStr c) (PyStr u) (PyStr k))) with (PyStr u).
  cbn [dict_getitem]. rewrite Htok, request_url_query.
  destruct (http_get E (query_url c k tok)) as [e | body]; [reflexivity |].
  destruct (file_write_error E) as [e |]; [reflexivity |].
  destruct (minidom_parse E body) as [e | document]; [reflexivity |].
  destruct (extract_report document) as [r | e]; [| reflexivity].
  cbn [after_store city_weather_dict city_name].
  by rewrite lookup_insert_eq.
Qed.

Lemma main_issues_the_request_witness :
  fst (parse_args env_network_down ["tel aviv"; "kelvin"; "KEY"] empty_world)
  = Ok ("tel aviv", "kelvin", "KEY")
  ∧ ∃ tok, dict_get unit_conversion_dict "kelvin" = Some tok
           ∧ requests (snd (main env_network_down
                              ["tel aviv"; "kelvin"; "KEY"] empty_world))
             = requests empty_world ++ [query_url "tel aviv" "KEY" tok].
Proof.
  split; [reflexivity |].
  exact (main_issues_the_request env_network_down
           ["tel aviv"; "kelvin"; "KEY"] "tel aviv" "kelvin" "KEY"
           empty_world eq_refl).
Defined.

(** X17.  From the command line the [KeyError] and the [TypeError] of
    [run] are out of reach: [main] ends normally, with an exit status
    (that of argparse, or 2 for a unit outside the [choices]), in an
    exception of the outside, or in the [IndexError] of an incomplete
    response. *)
Theorem main_outcomes E (argv : list string) w :
  main_outcome (fst (main E argv w)).
Proof.
  unfold main_outcome.
  destruct (argparse E argv) as [code out | c u k] eqn:Hargv.
  - unfold main. unfold mbind at 1. unfold M_bind at 1. unfold parse_args.
    rewrite Hargv. cbn [fst]. eauto.
  - destruct (decide (u ∈ temp_units_choices)) as [Hu | Hu].
    + destruct (dict_getitem_known_unit u Hu) as [tok Htok].
      rewrite (main_positionals _ _ _ _ _ _ Hargv Hu). unfold run.
      rewrite query_closed_form, update_city_weather_dict_closed_form.
      change (units (__init__ (PyStr c) (PyStr u) (PyStr k))) with (PyStr u).
      cbn [dict_getitem]. rewrite Htok, request_url_query.
      destruct (http_get E _) as [e | body]; [cbn [fst]; eauto 10 |].
      destruct (file_write_error E) as [e |]; [cbn [fst]; eauto 10 |].
      destruct (minidom_parse E body) as [e | document];
        [cbn [fst]; eauto 10 |].
      destruct (extract_report document) as [r | e] eqn:Hextract.
      * cbn [after_store city_weather_dict city_name].
        rewrite lookup_insert_eq. auto.
      * apply extract_report_raises in Hextract. subst e. cbn [fst]. auto.
    + unfold main. unfold mbind at 1. unfold M_bind at 1. unfold parse_args.
      rewrite Hargv, bool_decide_eq_false_2 by exact Hu. cbn [fst]. eauto.
Qed.

(** The help of argparse: status 0, the help text on standard output, and
    nothing else done. *)
Example main_help :
  main (env_help "usage: current_city_weather.py [-h] city_name temp_units api_key")
       ["-h"] empty_world
  = (Raise (SystemExit 0),
     {| city_weather_dict := ∅;
        stdout := ["usage: current_city_weather.py [-h] city_name temp_units api_key"];
        weather_xml := None; requests := [] |}).
Proof. reflexivity. Qed.

(** ** Queries for different cities *)

(** X18.  Successful queries for two different cities leave both records
    in the dictionary: the second query does not disturb the entry of the
    first. *)
Theorem queries_for_two_cities_keep_both
    E1 E2 (c1 c2 u1 k1 u2 k2 : pyval) w0 w1 w2 :
  c1 ≠ c2 →
  run E1 c1 u1 k1 w0 = (Ok tt, w1) →
  run E2 c2 u2 k2 w1 = (Ok tt, w2) →
  ∃ r1 r2,
    city_weather_dict w1 !! c1 = Some r1
    ∧ city_weather_dict w2 !! c1 = Some r1
    ∧ city_weather_dict w2 !! c2 = Some r2.
Proof.
  intros Hne H1 H2.
  apply run_ok_inv in H1 as (? & ? & ? & r1 & _ & _ & Hdict1).
  apply run_ok_inv in H2 as (? & ? & ? & r2 & _ & _ & Hdict2).
  exists r1, r2. rewrite Hdict2, Hdict1. repeat split.
  - apply lookup_insert_eq.
  - rewrite lookup_insert_ne by (intros ->; by apply Hne).
    apply lookup_insert_eq.
  - apply lookup_insert_eq.
Qed.

Lemma queries_for_two_cities_keep_both_witness :
  PyStr "tel aviv" ≠ PyStr "paris"
  ∧ run (env_ok sample_body sample_document)
        (PyStr "tel aviv") (PyStr "celsius") sample_key empty_world
    = (Ok tt, world_after_sample)
  ∧ run (env_ok later_body later_document)
        (PyStr "paris") (PyStr "fahrenheit") sample_key world_after_sample
    = (Ok tt, world_after_paris)
  ∧ ∃ r1 r2,
      city_weather_dict world_after_sample !! PyStr "tel aviv" = Some r1
      ∧ city_weather_dict world_after_paris !! PyStr "tel aviv" = Some r1
      ∧ city_weather_dict world_after_paris !! PyStr "paris" = Some r2.
Proof.
  assert (Hne : PyStr "tel aviv" ≠ PyStr "paris") by discriminate.
  assert (H1 : run (env_ok sample_body sample_document)
      (PyStr "tel aviv") (PyStr "celsius") sample_key empty_world
    = (Ok tt, world_after_sample)) by (vm_compute; reflexivity).
  assert (H2 : run (env_ok later_body later_document)
      (PyStr "paris") (PyStr "fahrenheit") sample_key world_after_sample
    = (Ok tt, world_after_paris)) by (vm_compute; reflexivity).
  split; [exact Hne |]. split; [exact H1 |]. split; [exact H2 |].
  exact (queries_for_two_cities_keep_both _ _ _ _ _ _ _ _ _ _ _ Hne H1 H2).
Defined.

(** ** The loop of the units setter *)

(** X19.  The loop of the [units] setter lets a value through exactly when
    no key it iterates over differs from the value, that is, when every
    key is that value; this is why it can accept nothing once the table
    has two different keys. *)
Theorem units_loop_accepts_iff_all_keys_equal (keys : list string) (val : pyval) :
  units_loop keys val = Ok tt ↔ ∀ k, k ∈ keys → val = PyStr k.
Proof.
  induction keys as [| k keys IH]; cbn [units_loop].
  - split; [intros _ k Hk; by apply elem_of_nil in Hk | reflexivity].
  - unfold py_ne. case_bool_decide as Hval.
    + split; [discriminate |]. intros Hall.
      destruct Hval. apply Hall. by left.
    + rewrite IH. split.
      * intros Hall k' Hk'. apply elem_of_cons in Hk' as [-> | Hk'];
          [exact Hval | by apply Hall].
      * intros Hall k' Hk'. apply Hall. by right.
Qed.

(** ** The fetch step on its own *)

(** X20.  The fetch step never touches the dictionary and never prints,
    however it ends. *)
Theorem fetch_step_keeps_dict_and_stdout E self w :
  city_weather_dict (snd (create_city_weather_data_file E self w))
  = city_weather_dict w
  ∧ stdout (snd (create_city_weather_data_file E self w)) = stdout w.
Proof.
  unfold create_city_weather_data_file. unfold_monad.
  destruct (dict_getitem _ _) as [tok |]; [| by split].
  destruct (request_url self tok) as [url |]; [| by split].
  unfold urlopen_read, write_city_file.
  destruct (http_get E url); [by split |].
  destruct (file_write_error E); by split.
Qed.
